(** * Kanban board service: a shallow embedding of [main.py]

    The service is a thin request-to-store mapping over two collections,
    [column] and [task].  Handlers are embedded as computations in a small
    state-and-exception monad over the document store; every driver call
    is recorded in the store's call log, so that statements such as
    "before any store call" or "no store write" can be read off the state.

    Conventions.
    - Python [int] is [Z]; [str] is [string]; [Optional[T]] is [option T].
    - A stored document is a record; a field the code reads with
      [d.get("position", 0)] is an [option] ([None]: the field is missing).
    - [bson.ObjectId] is a parameter: a countable type of identifiers, a
      partial parser of path strings and the rendering [str]. *)

From Stdlib Require Import ZArith NArith Ascii String List Sorted Permutation Lia.
From stdpp Require Import gmap strings list fin_maps.

Local Open Scope string_scope.
Local Open Scope list_scope.
Local Open Scope Z_scope.

(** ** Exceptions and results *)

Inductive exn :=
| HTTPException (status_code : Z) (detail : string)
| InvalidId (s : string).

Inductive result (A : Type) :=
| Return (a : A)
| Raise (e : exn).
Arguments Return {A} a.
Arguments Raise {A} e.

(** ** Driver calls, as recorded in the call log *)

Inductive collection := column | task.

Inductive store_call :=
| Call_find (c : collection)
| Call_find_one (c : collection)
| Call_insert_one (c : collection)
| Call_update_one (c : collection)
| Call_delete_one (c : collection)
| Call_delete_many (c : collection).

Definition is_write (c : store_call) : bool :=
  match c with
  | Call_find _ | Call_find_one _ => false
  | _ => true
  end.

(** ** Stored documents *)

(** Modelled from the spec: the [Column] schema of [schemas.py] (a name and
    an integer position).  [col_position = None] is a stored document
    without a [position] field, which [list_columns] reads as 0. *)
Record Column := {
  col_name : string;
  col_position : option Z
}.

(** Modelled from the spec: the [Task] schema of [schemas.py]. *)
Record Task := {
  task_title : string;
  task_description : option string;
  task_column_id : string;
  task_position : option Z;
  task_priority : string;
  task_tags : list string
}.

(** ** Request bodies *)

(** A field of a JSON body: left out, sent as [null], or sent with a value. *)
Inductive field (A : Type) :=
| Absent
| Null
| Given (a : A).
Arguments Absent {A}.
Arguments Null {A}.
Arguments Given {A} a.

(** Whether the body gives the field a value. *)
Definition supplied {A} (f : field A) : bool :=
  match f with
  | Given _ => true
  | _ => false
  end.

(** A pydantic field [Optional[T] = dflt]. *)
Definition optional {A} (dflt : option A) (f : field A) : option A :=
  match f with
  | Absent => dflt
  | Null => None
  | Given a => Some a
  end.

(** [x or y] on an optional value, for a given notion of falsy value. *)
Definition py_or {A} (falsy : A → bool) (x : option A) (y : A) : A :=
  match x with
  | Some a => if falsy a then y else a
  | None => y
  end.

Definition falsy_int (z : Z) : bool := z =? 0.
Definition falsy_str (s : string) : bool := if decide (s = "") then true else false.
Definition falsy_list {A} (l : list A) : bool := match l with [] => true | _ => false end.

Record ColumnCreate := {
  cc_name : string;
  cc_position : option Z
}.

Record ColumnUpdate := {
  cu_name : option string;
  cu_position : option Z
}.

Record TaskCreate := {
  tc_title : string;
  tc_description : option string;
  tc_column_id : string;
  tc_position : option Z;
  tc_priority : option string;
  tc_tags : option (list string)
}.

Record TaskUpdate := {
  tu_title : option string;
  tu_description : option string;
  tu_column_id : option string;
  tu_position : option Z;
  tu_priority : option string;
  tu_tags : option (list string)
}.

(** Raw bodies and their validation, with the defaults of the class
    declarations. *)
Record ColumnUpdate_body := {
  cub_name : field string;
  cub_position : field Z
}.

Definition ColumnUpdate_validate (b : ColumnUpdate_body) : ColumnUpdate :=
  {| cu_name := optional None (cub_name b);
     cu_position := optional None (cub_position b) |}.

Record TaskCreate_body := {
  tcb_title : string;
  tcb_description : field string;
  tcb_column_id : string;
  tcb_position : field Z;
  tcb_priority : field string;
  tcb_tags : field (list string)
}.

Definition TaskCreate_validate (b : TaskCreate_body) : TaskCreate :=
  {| tc_title := tcb_title b;
     tc_description := optional None (tcb_description b);
     tc_column_id := tcb_column_id b;
     tc_position := optional (Some 0) (tcb_position b);
     tc_priority := optional (Some "normal") (tcb_priority b);
     tc_tags := optional (Some []) (tcb_tags b) |}.

Record TaskUpdate_body := {
  tub_title : field string;
  tub_description : field string;
  tub_column_id : field string;
  tub_position : field Z;
  tub_priority : field string;
  tub_tags : field (list string)
}.

Definition TaskUpdate_validate (b : TaskUpdate_body) : TaskUpdate :=
  {| tu_title := optional None (tub_title b);
     tu_description := optional None (tub_description b);
     tu_column_id := optional None (tub_column_id b);
     tu_position := optional None (tub_position b);
     tu_priority := optional None (tub_priority b);
     tu_tags := optional None (tub_tags b) |}.

(** ** The [updates] dictionaries

    [{k: v for k, v in payload.model_dump().items() if v is not None}]:
    the present fields, in declaration order, each key at most once. *)

Inductive column_set :=
| Set_name (v : string)
| Set_col_position (v : Z).

Inductive task_set :=
| Set_title (v : string)
| Set_description (v : string)
| Set_column_id (v : string)
| Set_position (v : Z)
| Set_priority (v : string)
| Set_tags (v : list string).

Definition present {A B} (mk : A → B) (v : option A) : list B :=
  match v with
  | Some a => [mk a]
  | None => []
  end.

Definition column_updates (payload : ColumnUpdate) : list column_set :=
  present Set_name (cu_name payload) ++
  present Set_col_position (cu_position payload).

Definition task_updates (payload : TaskUpdate) : list task_set :=
  present Set_title (tu_title payload) ++
  present Set_description (tu_description payload) ++
  present Set_column_id (tu_column_id payload) ++
  present Set_position (tu_position payload) ++
  present Set_priority (tu_priority payload) ++
  present Set_tags (tu_tags payload).

(** [updates.get("column_id")] and [updates.get("position")]. *)
Fixpoint get_column_id (updates : list task_set) : option string :=
  match updates with
  | [] => None
  | Set_column_id c :: _ => Some c
  | _ :: rest => get_column_id rest
  end.

Fixpoint get_position (updates : list task_set) : option Z :=
  match updates with
  | [] => None
  | Set_position p :: _ => Some p
  | _ :: rest => get_position rest
  end.

(** [{"$set": updates}] applied to a stored document. *)
Definition column_set_field (c : Column) (u : column_set) : Column :=
  match u with
  | Set_name v => {| col_name := v; col_position := col_position c |}
  | Set_col_position v => {| col_name := col_name c; col_position := Some v |}
  end.

Definition task_set_field (t : Task) (u : task_set) : Task :=
  match u with
  | Set_title v =>
      {| task_title := v; task_description := task_description t;
         task_column_id := task_column_id t; task_position := task_position t;
         task_priority := task_priority t; task_tags := task_tags t |}
  | Set_description v =>
      {| task_title := task_title t; task_description := Some v;
         task_column_id := task_column_id t; task_position := task_position t;
         task_priority := task_priority t; task_tags := task_tags t |}
  | Set_column_id v =>
      {| task_title := task_title t; task_description := task_description t;
         task_column_id := v; task_position := task_position t;
         task_priority := task_priority t; task_tags := task_tags t |}
  | Set_position v =>
      {| task_title := task_title t; task_description := task_description t;
         task_column_id := task_column_id t; task_position := Some v;
         task_priority := task_priority t; task_tags := task_tags t |}
  | Set_priority v =>
      {| task_title := task_title t; task_description := task_description t;
         task_column_id := task_column_id t; task_position := task_position t;
         task_priority := v; task_tags := task_tags t |}
  | Set_tags v =>
      {| task_title := task_title t; task_description := task_description t;
         task_column_id := task_column_id t; task_position := task_position t;
         task_priority := task_priority t; task_tags := v |}
  end.

Definition column_apply_set (updates : list column_set) (c : Column) : Column :=
  fold_left column_set_field updates c.

Definition task_apply_set (updates : list task_set) (t : Task) : Task :=
  fold_left task_set_field updates t.

(** ** Sorting *)

(** Stable insertion sort for a boolean order [le]: an element is placed
    before the first later element it is [le] to.  A stable sort has one
    possible output, so this is also what Python's [list.sort] returns. *)
Fixpoint insert_sorted {A} (le : A → A → bool) (x : A) (l : list A) : list A :=
  match l with
  | [] => [x]
  | y :: l' => if le x y then x :: y :: l' else y :: insert_sorted le x l'
  end.

Fixpoint sort_by {A} (le : A → A → bool) (l : list A) : list A :=
  match l with
  | [] => []
  | x :: l' => insert_sorted le x (sort_by le l')
  end.

(** [c.get("position", 0)] and [t.get("position", 0)]. *)
Definition column_position_key (c : Column) : Z := default 0 (col_position c).
Definition task_position_key (t : Task) : Z := default 0 (task_position t).

(** Python: [docs.sort(key=lambda d: d.get("position", 0))]. *)
Definition key_le {K D} (key : D → Z) (x y : K * D) : bool := key x.2 <=? key y.2.

(** The store's order on the [position] field: a missing field sorts below
    every integer. *)
Definition position_le (x y : option Z) : bool :=
  match x, y with
  | None, _ => true
  | Some _, None => false
  | Some a, Some b => a <=? b
  end.

(** The store: [.sort("position", -1)], descending. *)
Definition position_desc {K} (x y : K * Task) : bool :=
  position_le (task_position y.2) (task_position x.2).

(** ** Responses *)

Inductive json :=
| J_null
| J_message (s : string)
| J_updated (b : bool)
| J_deleted (b : bool)
| J_column (doc : string * Column)
| J_task (doc : string * Task)
| J_columns (docs : list (string * Column))
| J_tasks (docs : list (string * Task)).

(** Python truthiness of an [Optional[str]]: [None] and [""] are falsy. *)
Definition truthy_str (s : option string) : bool :=
  match s with
  | Some v => negb (falsy_str v)
  | None => false
  end.

(** Filters of the task collection: [{}] and [{"column_id": v}]. *)
Inductive task_query :=
| Q_empty
| Q_column_id (v : string).

Definition task_matches (q : task_query) (t : Task) : bool :=
  match q with
  | Q_empty => true
  | Q_column_id v => bool_decide (task_column_id t = v)
  end.

(** The routes declared with [@app.get], [@app.post], [@app.patch] and
    [@app.delete] on the board's resources, each with its validated input. *)
Inductive request :=
| GET_root
| GET_api_columns
| POST_api_columns (payload : ColumnCreate)
| PATCH_api_columns (column_id : string) (payload : ColumnUpdate)
| DELETE_api_columns (column_id : string)
| GET_api_tasks (column_id : option string)
| POST_api_tasks (payload : TaskCreate)
| PATCH_api_tasks (task_id : string) (payload : TaskUpdate)
| DELETE_api_tasks (task_id : string).

(** The collection and path identifier an update or delete route aims at. *)
Definition target (r : request) : option (collection * string) :=
  match r with
  | PATCH_api_columns column_id _ | DELETE_api_columns column_id => Some (column, column_id)
  | PATCH_api_tasks task_id _ | DELETE_api_tasks task_id => Some (task, task_id)
  | _ => None
  end.

(** The driver call by which an update or delete route mutates its target. *)
Definition mutation (r : request) : option store_call :=
  match r with
  | PATCH_api_columns _ _ => Some (Call_update_one column)
  | DELETE_api_columns _ => Some (Call_delete_one column)
  | PATCH_api_tasks _ _ => Some (Call_update_one task)
  | DELETE_api_tasks _ => Some (Call_delete_one task)
  | _ => None
  end.

(** An Update Column request whose patch has no field to apply. *)
Definition empty_column_patch (r : request) : bool :=
  match r with
  | PATCH_api_columns _ payload => falsy_list (column_updates payload)
  | _ => false
  end.

Definition invalid_id_detail (c : collection) : string :=
  match c with
  | column => "Invalid column id"
  | task => "Invalid task id"
  end.

Definition not_found_detail (c : collection) : string :=
  match c with
  | column => "Column not found"
  | task => "Task not found"
  end.

(** ** The store and the handler monad *)

Section Board.

Context {oid : Type} `{Countable oid} `{Infinite oid}.

(** [ObjectId(s)]: [None] when the constructor raises. *)
Variable ObjectId : string → option oid.
(** [str(oid)]. *)
Variable str_oid : oid → string.

Record store := {
  column_coll : gmap oid Column;
  task_coll : gmap oid Task;
  calls : list store_call
}.

Definition handler (A : Type) : Type := store → result A * store.

#[global] Instance handler_ret : MRet handler :=
  λ A a s, (Return a, s).

#[global] Instance handler_bind : MBind handler :=
  λ A B k m s,
    match m s with
    | (Return a, s') => k a s'
    | (Raise e, s') => (Raise e, s')
    end.

Definition raise {A} (e : exn) : handler A := λ s, (Raise e, s).

Definition log (c : store_call) : handler () :=
  λ s, (Return (),
        {| column_coll := column_coll s; task_coll := task_coll s;
           calls := calls s ++ [c] |}).

(** A handle on one collection, [db["column"]] or [db["task"]]. *)
Record handle (D : Type) := {
  coll_name : collection;
  coll_get : store → gmap oid D;
  coll_put : gmap oid D → store → store
}.
Arguments coll_name {D} h.
Arguments coll_get {D} h s.
Arguments coll_put {D} h m s.

Definition db_column : handle Column :=
  {| coll_name := column;
     coll_get := column_coll;
     coll_put := λ m s,
       {| column_coll := m; task_coll := task_coll s; calls := calls s |} |}.

Definition db_task : handle Task :=
  {| coll_name := task;
     coll_get := task_coll;
     coll_put := λ m s,
       {| column_coll := column_coll s; task_coll := m; calls := calls s |} |}.

Definition read {D} (h : handle D) : handler (gmap oid D) :=
  λ s, (Return (coll_get h s), s).

Definition write {D} (h : handle D) (m : gmap oid D) : handler () :=
  λ s, (Return (), coll_put h m s).

(** *** The driver's operations

    Identifiers are unique within a collection, so a collection is a
    finite map from [_id] to document.  [insert_one] draws an identifier
    that is not in use.  Without [sort] the store promises no order;
    [find] lists the documents as the map enumerates them. *)

Definition find {D} (h : handle D) (q : D → bool) : handler (list (oid * D)) :=
  log (Call_find (coll_name h));;
  m ← read h;
  mret (List.filter (λ d, q d.2) (map_to_list m)).

Definition find_one {D} (h : handle D) (o : oid) : handler (option (oid * D)) :=
  log (Call_find_one (coll_name h));;
  m ← read h;
  mret (pair o <$> m !! o).

Definition insert_one {D} (h : handle D) (d : D) : handler oid :=
  log (Call_insert_one (coll_name h));;
  m ← read h;
  let inserted_id := fresh (dom m) in
  write h (<[inserted_id := d]> m);;
  mret inserted_id.

(** [update_one({"_id": o}, {"$set": ...})], with [set] the effect of the
    [$set] document on a stored document; an empty [$set] changes
    nothing. *)
Definition update_one {D} (h : handle D) (o : oid) (set : D → D) : handler () :=
  log (Call_update_one (coll_name h));;
  m ← read h;
  write h (alter set o m).

(** [delete_one({"_id": o})], returning [deleted_count]. *)
Definition delete_one {D} (h : handle D) (o : oid) : handler Z :=
  log (Call_delete_one (coll_name h));;
  m ← read h;
  write h (delete o m);;
  mret (match m !! o with Some _ => 1 | None => 0 end).

Definition delete_many {D} (h : handle D) (q : D → bool) : handler () :=
  log (Call_delete_many (coll_name h));;
  m ← read h;
  write h (filter (λ d, q d.2 = false) m).

(** Cursor modifiers. *)
Definition sort {A} (le : A → A → bool) (cursor : list A) : list A := sort_by le cursor.
Definition limit {A} (n : nat) (cursor : list A) : list A := take n cursor.

(** *** The helpers of [database.py] *)

(** Modelled from the spec: [create_document] of [database.py], which is
    not part of the sources: insert the schema object's fields as one new
    document and return the string form of the identifier the store
    assigned. *)
Definition create_document {D} (h : handle D) (data : D) : handler string :=
  inserted_id ← insert_one h data;
  mret (str_oid inserted_id).

(** Modelled from the spec: [get_documents] of [database.py], which is not
    part of the sources: the list of the documents matching a filter. *)
Definition get_documents {D} (h : handle D) (q : D → bool) : handler (list (oid * D)) :=
  find h q.

(** *** [main.py] *)

Definition to_str_id {D} (doc : oid * D) : string * D := (str_oid doc.1, doc.2).

(** [to_str_id] on the result of [find_one], which may be [None]. *)
Definition to_str_id_opt {D} (mk : string * D → json) (doc : option (oid * D)) : json :=
  match doc with
  | Some d => mk (to_str_id d)
  | None => J_null
  end.

(** [ObjectId(new_id)] outside any [try]: the exception propagates. *)
Definition ObjectId_exn (s : string) : handler oid :=
  match ObjectId s with
  | Some o => mret o
  | None => raise (InvalidId s)
  end.

(** [try: oid = ObjectId(id) except Exception: raise HTTPException(400, detail)]. *)
Definition ObjectId_400 (s detail : string) : handler oid :=
  match ObjectId s with
  | Some o => mret o
  | None => raise (HTTPException 400 detail)
  end.

Definition read_root : handler json :=
  mret (J_message "Kanban API is running").

Definition list_columns : handler json :=
  cols ← get_documents db_column (λ _, true);
  let cols := sort_by (key_le column_position_key) cols in
  mret (J_columns (map to_str_id cols)).

Definition create_column (payload : ColumnCreate) : handler json :=
  let col := {| col_name := cc_name payload;
                col_position := Some (py_or falsy_int (cc_position payload) 0) |} in
  new_id ← create_document db_column col;
  o ← ObjectId_exn new_id;
  doc ← find_one db_column o;
  mret (to_str_id_opt J_column doc).

Definition update_column (column_id : string) (payload : ColumnUpdate) : handler json :=
  o ← ObjectId_400 column_id "Invalid column id";
  let updates := column_updates payload in
  if falsy_list updates then mret (J_updated false) else
  update_one db_column o (column_apply_set updates);;
  doc ← find_one db_column o;
  match doc with
  | None => raise (HTTPException 404 "Column not found")
  | Some d => mret (J_column (to_str_id d))
  end.

Definition delete_column (column_id : string) : handler json :=
  o ← ObjectId_400 column_id "Invalid column id";
  deleted_count ← delete_one db_column o;
  delete_many db_task (task_matches (Q_column_id column_id));;
  if deleted_count =? 0 then raise (HTTPException 404 "Column not found")
  else mret (J_deleted true).

Definition list_tasks (column_id : option string) : handler json :=
  let query :=
    match column_id with
    | Some v => if truthy_str column_id then Q_column_id v else Q_empty
    | None => Q_empty
    end in
  tasks ← get_documents db_task (task_matches query);
  let tasks := sort_by (key_le task_position_key) tasks in
  mret (J_tasks (map to_str_id tasks)).

(** The end-of-column position, written out twice in the source
    ([create_task] and [update_task]):
    [last = db["task"].find({"column_id": c}).sort("position", -1).limit(1)];
    [last_pos = 0]; [for d in last: last_pos = int(d.get("position", 0)) + 1]. *)
Definition last_pos_of (last : list (oid * Task)) : Z :=
  fold_left (λ _ d, task_position_key d.2 + 1) last 0.

Definition end_of_column (column_id : string) : handler Z :=
  found ← find db_task (task_matches (Q_column_id column_id));
  let last := limit 1 (sort position_desc found) in
  mret (last_pos_of last).

(** The value [end_of_column] returns on a given task collection. *)
Definition column_end (tasks : gmap oid Task) (column_id : string) : Z :=
  last_pos_of
    (limit 1 (sort position_desc
       (List.filter (λ d, task_matches (Q_column_id column_id) d.2)
          (map_to_list tasks)))).

(** The store after more driver calls were logged. *)
Definition logged (s : store) (cs : list store_call) : store :=
  {| column_coll := column_coll s; task_coll := task_coll s;
     calls := calls s ++ cs |}.

(** [TaskSchema(title=payload.title, ..., position=last_pos, ...)]. *)
Definition TaskSchema (payload : TaskCreate) (last_pos : Z) : Task :=
  {| task_title := tc_title payload;
     task_description := tc_description payload;
     task_column_id := tc_column_id payload;
     task_position := Some last_pos;
     task_priority := py_or falsy_str (tc_priority payload) "normal";
     task_tags := py_or falsy_list (tc_tags payload) [] |}.

Definition create_task (payload : TaskCreate) : handler json :=
  last_pos ← end_of_column (tc_column_id payload);
  let t := TaskSchema payload last_pos in
  new_id ← create_document db_task t;
  o ← ObjectId_exn new_id;
  doc ← find_one db_task o;
  mret (to_str_id_opt J_task doc).

Definition update_task (task_id : string) (payload : TaskUpdate) : handler json :=
  o ← ObjectId_400 task_id "Invalid task id";
  let updates := task_updates payload in
  updates ←
    match get_column_id updates, get_position updates with
    | Some c, None =>
        last_pos ← end_of_column c;
        mret (updates ++ [Set_position last_pos])
    | _, _ => mret updates
    end;
  update_one db_task o (task_apply_set updates);;
  doc ← find_one db_task o;
  match doc with
  | None => raise (HTTPException 404 "Task not found")
  | Some d => mret (J_task (to_str_id d))
  end.

Definition delete_task (task_id : string) : handler json :=
  o ← ObjectId_400 task_id "Invalid task id";
  deleted_count ← delete_one db_task o;
  if deleted_count =? 0 then raise (HTTPException 404 "Task not found")
  else mret (J_deleted true).

(** The [updates] that [update_task] hands to the store on a given task
    collection, and the reads it makes to compute them. *)
Definition task_updates_sent (tasks : gmap oid Task) (payload : TaskUpdate) : list task_set :=
  match tu_column_id payload, tu_position payload with
  | Some c, None => task_updates payload ++ [Set_position (column_end tasks c)]
  | _, _ => task_updates payload
  end.

Definition task_update_reads (payload : TaskUpdate) : list store_call :=
  match tu_column_id payload, tu_position payload with
  | Some c, None => [Call_find task]
  | _, _ => []
  end.

Definition route (r : request) : handler json :=
  match r with
  | GET_root => read_root
  | GET_api_columns => list_columns
  | POST_api_columns payload => create_column payload
  | PATCH_api_columns column_id payload => update_column column_id payload
  | DELETE_api_columns column_id => delete_column column_id
  | GET_api_tasks column_id => list_tasks column_id
  | POST_api_tasks payload => create_task payload
  | PATCH_api_tasks task_id payload => update_task task_id payload
  | DELETE_api_tasks task_id => delete_task task_id
  end.

(** Whether a collection holds a document with a given identifier. *)
Definition holds (s : store) (c : collection) (o : oid) : Prop :=
  match c with
  | column => is_Some (column_coll s !! o)
  | task => is_Some (task_coll s !! o)
  end.

(** *** The end-of-column rule, in the words of the specification

    A task of column [c]; the rule "one past the maximum position among
    the tasks of the column, or 0 if there is none". *)
Definition in_column (tasks : gmap oid Task) (c : string) (t : Task) : Prop :=
  ∃ k, tasks !! k = Some t ∧ task_column_id t = c.

Definition max_plus_one_or_zero (tasks : gmap oid Task) (c : string) (p : Z) : Prop :=
  ((∀ t, ¬ in_column tasks c t) ∧ p = 0) ∨
  (∃ t m, in_column tasks c t ∧ task_position t = Some m ∧ p = m + 1 ∧
          ∀ t' m', in_column tasks c t' → task_position t' = Some m' → m' ≤ m).

(** Every task of column [c] carries a [position], as every task written
    through the service does. *)
Definition positions_present (tasks : gmap oid Task) (c : string) : Prop :=
  map_Forall (λ _ t, task_column_id t = c → is_Some (task_position t)) tasks.

End Board.

Arguments store oid {_ _}.

(** ** The diagnostics endpoint, [test_database] *)

Module Diagnostics.

(** Python text as a sequence of code points, so that [str(e)[:50]] is the
    first 50 characters whatever the message holds. *)
Definition text := list N.

Definition ascii_text (s : string) : text :=
  map N_of_ascii (list_ascii_of_string s).

(** U+2705, U+274C and U+26A0 U+FE0F. *)
Definition check_mark : text := [9989%N].
Definition cross_mark : text := [10060%N].
Definition warning_sign : text := [9888%N; 65039%N].

(** What evaluating an expression does: a value, or an exception [e] of
    class [Exception], kept as [str(e)]. *)
Inductive outcome (A : Type) :=
| Value (a : A)
| Exception (msg : text).
Arguments Value {A} a.
Arguments Exception {A} msg.

(** An attribute of an object: missing ([AttributeError]), or a property
    whose evaluation has an outcome. *)
Inductive attribute (A : Type) :=
| No_attribute
| Property (get : outcome A).
Arguments No_attribute {A}.
Arguments Property {A} get.

(** The global [db] of [database.py], as far as [test_database] looks at
    it: its [name] attribute and the call [list_collection_names()]. *)
Record Database := {
  name : attribute text;
  list_collection_names : outcome (list text)
}.

Record response := {
  backend : text;
  database : text;
  database_url : option text;
  database_name : option text;
  connection_status : text;
  collections : list text
}.

(** Statements that mutate the [response] dictionary and may raise; the
    mutations made before an exception stay. *)
Definition proc (A : Type) : Type := response → outcome A * response.

#[global] Instance proc_ret : MRet proc :=
  λ A a r, (Value a, r).

#[global] Instance proc_bind : MBind proc :=
  λ A B k m r,
    match m r with
    | (Value a, r') => k a r'
    | (Exception e, r') => (Exception e, r')
    end.

Definition eval {A} (o : outcome A) : proc A := λ r, (o, r).

(** [return response]. *)
Definition return_response : proc response := λ r, (Value r, r).

(** [try: body except Exception as e: handler(str(e))]. *)
Definition try_except {A} (body : proc A) (handler : text → proc A) : proc A :=
  λ r,
    match body r with
    | (Value a, r') => (Value a, r')
    | (Exception e, r') => handler e r'
    end.

Definition set_database (v : text) : proc () :=
  λ r, (Value (),
        {| backend := backend r; database := v; database_url := database_url r;
           database_name := database_name r;
           connection_status := connection_status r;
           collections := collections r |}).

Definition set_database_url (v : text) : proc () :=
  λ r, (Value (),
        {| backend := backend r; database := database r; database_url := Some v;
           database_name := database_name r;
           connection_status := connection_status r;
           collections := collections r |}).

Definition set_database_name (v : text) : proc () :=
  λ r, (Value (),
        {| backend := backend r; database := database r;
           database_url := database_url r; database_name := Some v;
           connection_status := connection_status r;
           collections := collections r |}).

Definition set_connection_status (v : text) : proc () :=
  λ r, (Value (),
        {| backend := backend r; database := database r;
           database_url := database_url r; database_name := database_name r;
           connection_status := v; collections := collections r |}).

Definition set_collections (v : list text) : proc () :=
  λ r, (Value (),
        {| backend := backend r; database := database r;
           database_url := database_url r; database_name := database_name r;
           connection_status := connection_status r; collections := v |}).

(** [hasattr(db, 'name')]: only [AttributeError] is turned into [False]. *)
Definition hasattr_name (db : Database) : proc bool :=
  match name db with
  | No_attribute => mret false
  | Property (Value _) => mret true
  | Property (Exception e) => eval (Exception e)
  end.

(** [db.name], evaluated after [hasattr] answered [True]. *)
Definition get_name (db : Database) : proc text :=
  match name db with
  | No_attribute => eval (Exception (ascii_text "name"))
  | Property o => eval o
  end.

(** [s[:n]] on text and on lists. *)
Definition slice_to {A} (n : nat) (s : list A) : list A := take n s.

(** Truthiness of [os.getenv(...)]: [None] and the empty string are falsy. *)
Definition truthy_env (v : option text) : bool :=
  match v with
  | Some (_ :: _) => true
  | _ => false
  end.

Record environ := {
  DATABASE_URL : option text;
  DATABASE_NAME : option text
}.

Definition initial_response : response :=
  {| backend := check_mark ++ ascii_text " Running";
     database := cross_mark ++ ascii_text " Not Available";
     database_url := None;
     database_name := None;
     connection_status := ascii_text "Not Connected";
     collections := [] |}.

Definition set_or_not (v : option text) : text :=
  if truthy_env v then check_mark ++ ascii_text " Set"
  else cross_mark ++ ascii_text " Not Set".

Definition test_database_body (db : option Database) (env : environ) : proc response :=
  try_except
    match db with
    | Some d =>
        set_database (check_mark ++ ascii_text " Available");;
        set_database_url (check_mark ++ ascii_text " Configured");;
        has_name ← hasattr_name d;
        db_name ← (if has_name : bool then get_name d
                   else mret (check_mark ++ ascii_text " Connected"));
        set_database_name db_name;;
        set_connection_status (ascii_text "Connected");;
        try_except
          (names ← eval (list_collection_names d);
           set_collections (slice_to 10 names);;
           set_database (check_mark ++ ascii_text " Connected & Working"))
          (λ e, set_database
                  (warning_sign ++ ascii_text "  Connected but Error: " ++ slice_to 50 e))
    | None =>
        set_database (warning_sign ++ ascii_text "  Available but not initialized")
    end
    (λ e, set_database (cross_mark ++ ascii_text " Error: " ++ slice_to 50 e));;
  set_database_url (set_or_not (DATABASE_URL env));;
  set_database_name (set_or_not (DATABASE_NAME env));;
  return_response.

(** The endpoint: what the call returns, or the exception that leaves it. *)
Definition test_database (db : option Database) (env : environ) : outcome response :=
  (test_database_body db env initial_response).1.

End Diagnostics.

(** ** A concrete identifier format

    Twelve bytes written as 24 hexadecimal digits, held as a number; used
    to run the handlers on concrete stores. *)

Definition hex_digit (a : ascii) : option N :=
  let n := N_of_ascii a in
  if ((48 <=? n) && (n <=? 57))%N then Some (n - 48)%N
  else if ((97 <=? n) && (n <=? 102))%N then Some (n - 87)%N
  else if ((65 <=? n) && (n <=? 70))%N then Some (n - 55)%N
  else None.

Fixpoint hex_value (s : string) (acc : N) : option N :=
  match s with
  | EmptyString => Some acc
  | String a s' =>
      match hex_digit a with
      | Some d => hex_value s' (16 * acc + d)%N
      | None => None
      end
  end.

Definition hex_ObjectId (s : string) : option N :=
  if (String.length s =? 24)%nat then hex_value s 0%N else None.

Definition hex_char (d : N) : ascii :=
  if (d <? 10)%N then ascii_of_N (48 + d) else ascii_of_N (87 + d).

Fixpoint hex_render (digits : nat) (v : N) (acc : string) : string :=
  match digits with
  | O => acc
  | S n => hex_render n (v / 16)%N (String (hex_char (v mod 16)%N) acc)
  end.

Definition hex_str (o : N) : string := hex_render 24 o "".

Definition empty_store : store N :=
  {| column_coll := ∅; task_coll := ∅; calls := [] |}.

(** A board with one column, three tasks in it at positions 0, 2 and 1,
    and a task of another column. *)
Definition todo_id : string := "507f1f77bcf86cd799439011".
Definition todo_oid : N := 24912482966938930280208240657%N.

Definition a_task (column_id : string) (position : Z) : Task :=
  {| task_title := "task"; task_description := None;
     task_column_id := column_id; task_position := Some position;
     task_priority := "normal"; task_tags := [] |}.

Definition board : store N :=
  {| column_coll := {[ todo_oid := {| col_name := "Todo"; col_position := Some 0 |} ]};
     task_coll :=
       <[1%N := a_task todo_id 0]>
         (<[2%N := a_task todo_id 2]>
            (<[3%N := a_task todo_id 1]>
               (<[4%N := a_task "done" 9]> ∅)));
     calls := [] |}.

Definition create_body (column_id : string) (position : field Z) : TaskCreate_body :=
  {| tcb_title := "new"; tcb_description := Absent; tcb_column_id := column_id;
     tcb_position := position; tcb_priority := Absent; tcb_tags := Absent |}.

Definition empty_column_body : ColumnUpdate_body :=
  {| cub_name := Absent; cub_position := Null |}.

Definition empty_task_patch : TaskUpdate :=
  {| tu_title := None; tu_description := None; tu_column_id := None;
     tu_position := None; tu_priority := None; tu_tags := None |}.

Definition move_to (column_id : string) : TaskUpdate :=
  {| tu_title := None; tu_description := None; tu_column_id := Some column_id;
     tu_position := None; tu_priority := None; tu_tags := None |}.

(** * Properties *)

(** ** Sorting *)

Section Sorting.

Context {A : Type} (le : A → A → bool).

Lemma insert_sorted_Permutation (x : A) (l : list A) :
  insert_sorted le x l ≡ₚ x :: l.
Proof.
  induction l as [|y l IH]; simpl; [done|].
  destruct (le x y); [done|].
  rewrite IH. apply perm_swap.
Qed.

Lemma sort_by_Permutation (l : list A) : sort_by le l ≡ₚ l.
Proof.
  induction l as [|x l IH]; simpl; [done|].
  by rewrite insert_sorted_Permutation, IH.
Qed.

Hypothesis le_total : ∀ x y, le x y = false → le y x = true.
Hypothesis le_trans : ∀ x y z, le x y = true → le y z = true → le x z = true.

Lemma insert_sorted_StronglySorted (x : A) (l : list A) :
  StronglySorted (λ a b, le a b = true) l →
  StronglySorted (λ a b, le a b = true) (insert_sorted le x l).
Proof.
  induction l as [|y l IH]; simpl; intros Hs.
  - repeat constructor.
  - apply StronglySorted_inv in Hs as [Hs Hy].
    destruct (le x y) eqn:Hxy.
    + constructor; [by constructor|].
      constructor; [done|].
      eapply Forall_impl; [exact Hy|]. intros z Hz. by eapply le_trans.
    + constructor; [by apply IH|].
      rewrite insert_sorted_Permutation. constructor; [by apply le_total|done].
Qed.

Lemma sort_by_StronglySorted (l : list A) :
  StronglySorted (λ a b, le a b = true) (sort_by le l).
Proof.
  induction l as [|x l IH]; simpl; [constructor|].
  by apply insert_sorted_StronglySorted.
Qed.

End Sorting.

Lemma StronglySorted_lookup_lt {A} (R : A → A → Prop) (l : list A) (i j : nat) (a b : A) :
  StronglySorted R l → (i < j)%nat → l !! i = Some a → l !! j = Some b → R a b.
Proof.
  intros Hs. revert i j. induction Hs as [|x l Hs IH Hx]; intros i j Hij Hi Hj.
  - by rewrite lookup_nil in Hi.
  - destruct j as [|j]; [lia|]. simpl in Hj.
    destruct i as [|i]; simpl in Hi.
    + injection Hi as <-. rewrite Forall_forall in Hx. apply Hx.
      by eapply list_elem_of_lookup_2.
    + eapply (IH i j); [lia|done..].
Qed.

(** The two orders used by the service are total and transitive. *)
Lemma key_le_total {K D} (key : D → Z) (x y : K * D) :
  key_le key x y = false → key_le key y x = true.
Proof. unfold key_le. lia. Qed.

Lemma key_le_trans {K D} (key : D → Z) (x y z : K * D) :
  key_le key x y = true → key_le key y z = true → key_le key x z = true.
Proof. unfold key_le. lia. Qed.

Lemma position_le_total (x y : option Z) :
  position_le x y = false → position_le y x = true.
Proof. destruct x, y; simpl; try done. lia. Qed.

Lemma position_le_trans (x y z : option Z) :
  position_le x y = true → position_le y z = true → position_le x z = true.
Proof. destruct x, y, z; simpl; try done. lia. Qed.

Lemma position_le_refl (x : option Z) : position_le x x = true.
Proof. destruct x; simpl; [lia|done]. Qed.

(** A listing sorted with [key]: the same documents, keys non-decreasing. *)
Lemma sort_by_key_listing {K D} (key : D → Z) (render : K * D → string * D)
    (l : list (K * D)) :
  (∀ d, (render d).2 = d.2) →
  let docs := map render (sort_by (key_le key) l) in
  docs ≡ₚ map render l ∧
  ∀ (i j : nat) (a b : string * D),
    (i < j)%nat → docs !! i = Some a → docs !! j = Some b → key a.2 ≤ key b.2.
Proof.
  intros Hr docs. split.
  - subst docs. apply Permutation_map, sort_by_Permutation.
  - intros i j a b Hij Ha Hb. subst docs.
    change (map render ?l) with (render <$> l) in Ha, Hb.
    rewrite list_lookup_fmap in Ha, Hb.
    destruct (sort_by _ l !! i) as [a'|] eqn:Hi; [|done].
    destruct (sort_by _ l !! j) as [b'|] eqn:Hj; [|done].
    injection Ha as <-. injection Hb as <-. rewrite !Hr.
    pose proof (StronglySorted_lookup_lt _ _ i j a' b'
      (sort_by_StronglySorted (key_le key) (key_le_total key) (key_le_trans key) l)
      Hij Hi Hj) as Hle.
    unfold key_le in Hle. lia.
Qed.

(** ** Running the handlers *)

Section BoardProperties.

Context {oid : Type} `{Countable oid} `{Infinite oid}.
Variable ObjectId : string → option oid.
Variable str_oid : oid → string.

Ltac run :=
  cbv [route read_root list_columns create_column update_column delete_column
       list_tasks create_task update_task delete_task end_of_column
       ObjectId_400 ObjectId_exn create_document get_documents
       find find_one insert_one update_one delete_one delete_many
       read write log raise coll_name coll_get coll_put db_column db_task
       mbind mret handler_bind handler_ret logged
       column_coll task_coll calls].

Ltac run_on st := destruct st as [cols tasks hist]; run.

Lemma get_column_id_task_updates (payload : TaskUpdate) :
  get_column_id (task_updates payload) = tu_column_id payload.
Proof. by destruct payload as [[?|] [?|] [?|] [?|] [?|] [?|]]. Qed.

Lemma get_position_task_updates (payload : TaskUpdate) :
  get_position (task_updates payload) = tu_position payload.
Proof. by destruct payload as [[?|] [?|] [?|] [?|] [?|] [?|]]. Qed.

Lemma end_of_column_run (c : string) (st : store oid) :
  end_of_column c st =
    (Return (column_end (task_coll st) c), logged st [Call_find task]).
Proof. by run_on st. Qed.

(** A malformed path identifier: 400, with the store and its log as they were. *)
Lemma route_invalid_id (r : request) (c : collection) (id : string) (st : store oid) :
  target r = Some (c, id) → ObjectId id = None →
  route ObjectId str_oid r st = (Raise (HTTPException 400 (invalid_id_detail c)), st).
Proof.
  intros Ht Hid. destruct r; simplify_eq/=; run_on st; by rewrite Hid.
Qed.

Lemma update_column_empty (column_id : string) (o : oid) (payload : ColumnUpdate)
    (st : store oid) :
  ObjectId column_id = Some o → column_updates payload = [] →
  update_column ObjectId str_oid column_id payload st = (Return (J_updated false), st).
Proof. intros Hid Hu. run_on st. by rewrite Hid, Hu. Qed.

Lemma update_column_run (column_id : string) (o : oid) (payload : ColumnUpdate)
    (st : store oid) :
  ObjectId column_id = Some o → column_updates payload ≠ [] →
  update_column ObjectId str_oid column_id payload st =
    (match column_coll st !! o with
     | Some d => Return (J_column (str_oid o, column_apply_set (column_updates payload) d))
     | None => Raise (HTTPException 404 "Column not found")
     end,
     {| column_coll := alter (column_apply_set (column_updates payload)) o (column_coll st);
        task_coll := task_coll st;
        calls := calls st ++ [Call_update_one column; Call_find_one column] |}).
Proof.
  intros Hid Hu. run_on st. rewrite Hid.
  destruct (column_updates payload) as [|u us] eqn:Hus; [done|].
  cbn [falsy_list]. rewrite lookup_alter_eq, <- (assoc_L (++)).
  by destruct (cols !! o).
Qed.

Lemma delete_column_run (column_id : string) (o : oid) (st : store oid) :
  ObjectId column_id = Some o →
  delete_column ObjectId column_id st =
    (match column_coll st !! o with
     | Some _ => Return (J_deleted true)
     | None => Raise (HTTPException 404 "Column not found")
     end,
     {| column_coll := delete o (column_coll st);
        task_coll := filter (λ d, task_matches (Q_column_id column_id) d.2 = false)
                       (task_coll st);
        calls := calls st ++ [Call_delete_one column; Call_delete_many task] |}).
Proof.
  intros Hid. run_on st. rewrite Hid, <- (assoc_L (++)).
  by destruct (cols !! o).
Qed.

Lemma delete_task_run (task_id : string) (o : oid) (st : store oid) :
  ObjectId task_id = Some o →
  delete_task ObjectId task_id st =
    (match task_coll st !! o with
     | Some _ => Return (J_deleted true)
     | None => Raise (HTTPException 404 "Task not found")
     end,
     {| column_coll := column_coll st;
        task_coll := delete o (task_coll st);
        calls := calls st ++ [Call_delete_one task] |}).
Proof.
  intros Hid. run_on st. rewrite Hid.
  by destruct (tasks !! o).
Qed.

Lemma update_task_run (task_id : string) (o : oid) (payload : TaskUpdate) (st : store oid) :
  ObjectId task_id = Some o →
  update_task ObjectId str_oid task_id payload st =
    (match task_coll st !! o with
     | Some d => Return (J_task (str_oid o,
                   task_apply_set (task_updates_sent (task_coll st) payload) d))
     | None => Raise (HTTPException 404 "Task not found")
     end,
     {| column_coll := column_coll st;
        task_coll := alter (task_apply_set (task_updates_sent (task_coll st) payload)) o
                       (task_coll st);
        calls := calls st ++ task_update_reads payload ++
                 [Call_update_one task; Call_find_one task] |}).
Proof.
  intros Hid. unfold task_updates_sent, task_update_reads.
  run_on st. rewrite Hid, get_column_id_task_updates, get_position_task_updates.
  destruct (tu_column_id payload) as [c|], (tu_position payload) as [p|];
    rewrite lookup_alter_eq; cbn [app]; rewrite <- ?(assoc_L (++)); cbn [app];
    by destruct (tasks !! o).
Qed.

Lemma create_task_run (payload : TaskCreate) (st : store oid) :
  let new := fresh (dom (task_coll st)) in
  let t := TaskSchema payload (column_end (task_coll st) (tc_column_id payload)) in
  let inserted := <[new := t]> (task_coll st) in
  create_task ObjectId str_oid payload st =
    match ObjectId (str_oid new) with
    | Some o =>
        (Return (to_str_id_opt str_oid J_task (pair o <$> inserted !! o)),
         {| column_coll := column_coll st; task_coll := inserted;
            calls := calls st ++
              [Call_find task; Call_insert_one task; Call_find_one task] |})
    | None =>
        (Raise (InvalidId (str_oid new)),
         {| column_coll := column_coll st; task_coll := inserted;
            calls := calls st ++ [Call_find task; Call_insert_one task] |})
    end.
Proof.
  run_on st. fold (column_end tasks (tc_column_id payload)).
  destruct (ObjectId _); by rewrite <- !(assoc_L (++)).
Qed.

Lemma filter_all {A} (l : list A) : List.filter (λ _, true) l = l.
Proof. induction l; simpl; congruence. Qed.

Lemma list_columns_run (st : store oid) :
  list_columns str_oid st =
    (Return (J_columns (map (to_str_id str_oid)
       (sort_by (key_le column_position_key) (map_to_list (column_coll st))))),
     logged st [Call_find column]).
Proof. run_on st. by rewrite filter_all. Qed.

Lemma list_tasks_run (column_id : option string) (st : store oid) :
  list_tasks str_oid column_id st =
    (Return (J_tasks (map (to_str_id str_oid)
       (sort_by (key_le task_position_key)
          (List.filter
             (λ d, match column_id with
                   | Some v => if decide (v = "") then true
                               else bool_decide (task_column_id d.2 = v)
                   | None => true
                   end)
             (map_to_list (task_coll st)))))),
     logged st [Call_find task]).
Proof.
  run_on st. destruct column_id as [v|]; [|done].
  unfold truthy_str, falsy_str. by destruct (decide (v = "")).
Qed.

(** ** The end-of-column position *)

Lemma elem_of_find_column (tasks : gmap oid Task) (c : string) (d : oid * Task) :
  d ∈ List.filter (λ d, task_matches (Q_column_id c) d.2) (map_to_list tasks) ↔
  tasks !! d.1 = Some d.2 ∧ task_column_id d.2 = c.
Proof.
  rewrite list_elem_of_In, filter_In, <- list_elem_of_In. destruct d as [k t].
  rewrite elem_of_map_to_list. simpl. by rewrite bool_decide_eq_true.
Qed.

Lemma column_end_cases (tasks : gmap oid Task) (c : string) :
  ((∀ t, ¬ in_column tasks c t) ∧ column_end tasks c = 0) ∨
  (∃ t, in_column tasks c t ∧ column_end tasks c = task_position_key t + 1 ∧
        ∀ t', in_column tasks c t' →
              position_le (task_position t') (task_position t) = true).
Proof.
  unfold column_end, sort, limit.
  set (found := List.filter _ _).
  assert (Hfound : ∀ d, d ∈ found ↔ tasks !! d.1 = Some d.2 ∧ task_column_id d.2 = c)
    by apply elem_of_find_column.
  pose proof (sort_by_Permutation position_desc found) as Hperm.
  assert (Hsorted : StronglySorted (λ a b, position_desc a b = true)
                      (sort_by position_desc found)).
  { apply sort_by_StronglySorted; unfold position_desc.
    - intros x y. apply position_le_total.
    - intros x y z Hxy Hyz. by eapply position_le_trans. }
  destruct (sort_by position_desc found) as [|h rest].
  - left. split; [|done]. intros t [k [Hk Hc]].
    assert (Hin : (k, t) ∈ found) by by apply Hfound.
    rewrite <- Hperm in Hin. by apply elem_of_nil in Hin.
  - right. exists h.2. split; [|split].
    + exists h.1. apply Hfound. rewrite <- Hperm. left.
    + done.
    + intros t' [k [Hk Hc]].
      assert (Hin : (k, t') ∈ found) by by apply Hfound.
      rewrite <- Hperm in Hin. apply elem_of_cons in Hin as [<-|Hin].
      * apply position_le_refl.
      * apply StronglySorted_inv in Hsorted as [_ Hh].
        rewrite Forall_forall in Hh. exact (Hh _ Hin).
Qed.

Lemma column_end_max_plus_one_or_zero (tasks : gmap oid Task) (c : string) :
  positions_present tasks c →
  max_plus_one_or_zero tasks c (column_end tasks c).
Proof.
  intros Hpres. destruct (column_end_cases tasks c) as [[? ?]|(t & Ht & Hp & Hmax)].
  - by left.
  - right. destruct Ht as [k [Hk Hc]]. destruct (Hpres k t Hk Hc) as [m Hm].
    assert (Ht : in_column tasks c t) by by exists k.
    exists t, m. split; [done|]. split; [done|]. split.
    + rewrite Hp. unfold task_position_key. by rewrite Hm.
    + intros t' m' Ht' Hm'. specialize (Hmax t' Ht').
      rewrite Hm, Hm' in Hmax. simpl in Hmax. lia.
Qed.

(** ** Column updates and deletes *)

(** C7: an Update Column request with a well-formed id whose body gives no
    field a value (fields left out or null) returns [{"updated": False}] and
    leaves the store as it was, call log included, so no store call is made;
    this does not depend on a column with that id being stored. *)
Theorem update_column_empty_patch (column_id : string) (o : oid)
    (body : ColumnUpdate_body) (st : store oid) :
  ObjectId column_id = Some o →
  supplied (cub_name body) = false →
  supplied (cub_position body) = false →
  update_column ObjectId str_oid column_id (ColumnUpdate_validate body) st =
    (Return (J_updated false), st).
Proof.
  intros Hid Hn Hp. apply (update_column_empty column_id o); [done|].
  destruct body as [[| |n] [| |p]]; by simplify_eq/=.
Qed.

(** C5: deleting a column with a well-formed id removes the column with that
    id if there is one, leaves the other columns alone, removes every task
    whose [column_id] is the path string and no other task; the cascade call
    is made in every case, and the answer is 404 exactly when no column
    matched. *)
Theorem delete_column_cascade (column_id : string) (o : oid) (st : store oid) :
  ObjectId column_id = Some o →
  let out := delete_column ObjectId column_id st in
  column_coll out.2 !! o = None ∧
  (∀ o', o' ≠ o → column_coll out.2 !! o' = column_coll st !! o') ∧
  (∀ k t, task_coll st !! k = Some t → task_column_id t = column_id →
          task_coll out.2 !! k = None) ∧
  (∀ k t, task_coll st !! k = Some t → task_column_id t ≠ column_id →
          task_coll out.2 !! k = Some t) ∧
  (∀ k, task_coll st !! k = None → task_coll out.2 !! k = None) ∧
  calls out.2 = calls st ++ [Call_delete_one column; Call_delete_many task] ∧
  (is_Some (column_coll st !! o) → out.1 = Return (J_deleted true)) ∧
  (column_coll st !! o = None →
   out.1 = Raise (HTTPException 404 "Column not found")).
Proof.
  intros Hid out. subst out. rewrite (delete_column_run _ o) by done. simpl.
  split; [apply lookup_delete_eq|].
  split; [intros o' Hne; by apply lookup_delete_ne|].
  split.
  { intros k t Hk Hc. apply map_lookup_filter_None. right.
    intros t' Hk'. simplify_eq/=. rewrite bool_decide_eq_false. by intros Hn. }
  split.
  { intros k t Hk Hc. apply map_lookup_filter_Some. split; [done|].
    simpl. by rewrite bool_decide_eq_false. }
  split.
  { intros k Hk. apply map_lookup_filter_None. by left. }
  split; [done|].
  split.
  - intros [c Hc]. by rewrite Hc.
  - intros Hc. by rewrite Hc.
Qed.

(** C6, amended: for every update or delete request on a column or a task:
    a path id that does not parse gives 400 with the store and its call log
    as they were, whatever the patch; a well-formed id with no document
    gives 404, raised after the mutation call was issued, with the document
    still absent afterwards, except for an Update Column request with an
    empty patch, which answers [{"updated": False}] for every well-formed
    id and leaves the store and its call log as they were. *)
Theorem update_delete_id_errors (r : request) (c : collection) (id : string)
    (st : store oid) :
  target r = Some (c, id) →
  (ObjectId id = None →
   route ObjectId str_oid r st =
     (Raise (HTTPException 400 (invalid_id_detail c)), st)) ∧
  (∀ o, ObjectId id = Some o → ¬ holds st c o → empty_column_patch r = false →
     let out := route ObjectId str_oid r st in
     out.1 = Raise (HTTPException 404 (not_found_detail c)) ∧
     ¬ holds out.2 c o ∧
     ∃ m issued, mutation r = Some m ∧ calls out.2 = calls st ++ issued ∧
                 m ∈ issued) ∧
  (∀ o, ObjectId id = Some o → empty_column_patch r = true →
     route ObjectId str_oid r st = (Return (J_updated false), st)).
Proof.
  intros Ht. split; [by apply route_invalid_id|]. split.
  - intros o Hid Habs Hne out. subst out.
    destruct r; simplify_eq/=; unfold holds in *;
      rewrite <- eq_None_not_Some in Habs; rewrite <- eq_None_not_Some.
    + rewrite (update_column_run _ o)
        by (done || by destruct (column_updates payload)).
      simpl. rewrite Habs, lookup_alter_eq, Habs. split; [done|]. split; [done|].
      eexists _, _. split; [reflexivity|]. split; [reflexivity|]. set_solver.
    + rewrite (delete_column_run _ o) by done.
      simpl. rewrite Habs, lookup_delete_eq. split; [done|]. split; [done|].
      eexists _, _. split; [reflexivity|]. split; [reflexivity|]. set_solver.
    + rewrite (update_task_run _ o) by done.
      simpl. rewrite Habs, lookup_alter_eq, Habs. split; [done|]. split; [done|].
      eexists _, _. split; [reflexivity|]. split; [reflexivity|]. set_solver.
    + rewrite (delete_task_run _ o) by done.
      simpl. rewrite Habs, lookup_delete_eq. split; [done|]. split; [done|].
      eexists _, _. split; [reflexivity|]. split; [reflexivity|]. set_solver.
  - intros o Hid He. destruct r; simplify_eq/=.
    apply (update_column_empty _ o); [done|].
    by destruct (column_updates payload).
Qed.

(** ** Task positions *)

Lemma task_apply_set_move (payload : TaskUpdate) (c : string) (p : Z) (t : Task) :
  tu_column_id payload = Some c → tu_position payload = None →
  task_column_id (task_apply_set (task_updates payload ++ [Set_position p]) t) = c ∧
  task_position (task_apply_set (task_updates payload ++ [Set_position p]) t) = Some p.
Proof.
  destruct payload as [[?|] [?|] [?|] [?|] [?|] [?|]]; intros; by simplify_eq/=.
Qed.

Lemma task_apply_set_position (payload : TaskUpdate) (p : Z) (t : Task) :
  tu_position payload = Some p →
  task_position (task_apply_set (task_updates payload) t) = Some p.
Proof.
  destruct payload as [[?|] [?|] [?|] [?|] [?|] [?|]]; intros; by simplify_eq/=.
Qed.

Lemma fresh_not_stored {D} (m : gmap oid D) : m !! fresh (dom m) = None.
Proof. apply not_elem_of_dom, is_fresh. Qed.

(** What [create_task] stores, whatever the payload says about [position]. *)
Lemma create_task_stored (payload : TaskCreate) (st : store oid) :
  let out := create_task ObjectId str_oid payload st in
  let new := fresh (dom (task_coll st)) in
  let t := TaskSchema payload (column_end (task_coll st) (tc_column_id payload)) in
  task_coll st !! new = None ∧
  task_coll out.2 = <[new := t]> (task_coll st) ∧
  column_coll out.2 = column_coll st ∧
  (ObjectId (str_oid new) = Some new → out.1 = Return (J_task (str_oid new, t))).
Proof.
  intros out new t. subst out. rewrite create_task_run. fold new. fold t.
  split; [apply fresh_not_stored|].
  destruct (ObjectId (str_oid new)) as [o|] eqn:Hid; simpl; [|done].
  repeat split. intros [= ->]. by rewrite lookup_insert_eq.
Qed.

(** C1, amended: Create Task does not use the [position] of the request:
    two requests that differ in that field only (given, null or left out)
    have the same outcome, and the task stored is new and carries the
    end-of-column position of its column: 0 if the column has no task,
    strictly above every position found in the column, and, the tasks of
    the column carrying a position, one past the highest of them. *)
Theorem create_task_position_not_used (title : string) (description : field string)
    (column_id : string) (priority : field string) (tags : field (list string))
    (position position' : field Z) (st : store oid) :
  let body f :=
    {| tcb_title := title; tcb_description := description;
       tcb_column_id := column_id; tcb_position := f;
       tcb_priority := priority; tcb_tags := tags |} in
  let out := create_task ObjectId str_oid (TaskCreate_validate (body position)) st in
  out = create_task ObjectId str_oid (TaskCreate_validate (body position')) st ∧
  ∃ new t p,
    (end_of_column column_id st).1 = Return p ∧
    task_coll st !! new = None ∧
    task_coll out.2 = <[new := t]> (task_coll st) ∧
    task_column_id t = column_id ∧
    task_position t = Some p ∧
    ((∀ t', ¬ in_column (task_coll st) column_id t') → p = 0) ∧
    (∀ k t' m, task_coll st !! k = Some t' → task_column_id t' = column_id →
               task_position t' = Some m → m < p) ∧
    (positions_present (task_coll st) column_id →
     max_plus_one_or_zero (task_coll st) column_id p).
Proof.
  intros body out. split.
  - subst out. by rewrite !create_task_run.
  - destruct (create_task_stored (TaskCreate_validate (body position)) st)
      as (Hnew & Hst & _ & _).
    exists (fresh (dom (task_coll st))),
      (TaskSchema (TaskCreate_validate (body position))
         (column_end (task_coll st) column_id)),
      (column_end (task_coll st) column_id).
    rewrite end_of_column_run.
    split; [done|]. split; [exact Hnew|]. split; [exact Hst|].
    split; [done|]. split; [done|]. split; [|split].
    + intros Hempty.
      destruct (column_end_cases (task_coll st) column_id) as [[_ ?]|(t & Ht & _)];
        [done|by destruct (Hempty t)].
    + intros k t' m Hk Hc Hm.
      destruct (column_end_cases (task_coll st) column_id)
        as [[Hempty _]|(tmax & _ & -> & Hmax)].
      * destruct (Hempty t'). by exists k.
      * assert (Hle : position_le (task_position t') (task_position tmax) = true)
          by (apply Hmax; by exists k).
        rewrite Hm in Hle. unfold task_position_key.
        destruct (task_position tmax) as [M|]; simpl in *; [lia|done].
    + apply column_end_max_plus_one_or_zero.
Qed.

(** C2: a Create Task request without an explicit position stores a new task
    whose position is one past the maximum position among the tasks of the
    same [column_id], or 0 if the column has no task; positions {0,1,2}
    give 3 and an empty column gives 0.  The tasks of the column are taken
    to carry a position, as every task written through the service does. *)
Theorem create_task_end_of_column (body : TaskCreate_body) (st : store oid) :
  supplied (tcb_position body) = false →
  positions_present (task_coll st) (tcb_column_id body) →
  let c := tcb_column_id body in
  let out := create_task ObjectId str_oid (TaskCreate_validate body) st in
  ∃ new t p,
    task_coll st !! new = None ∧
    task_coll out.2 = <[new := t]> (task_coll st) ∧
    task_column_id t = c ∧
    task_position t = Some p ∧
    max_plus_one_or_zero (task_coll st) c p ∧
    ((∀ t', ¬ in_column (task_coll st) c t') → p = 0) ∧
    ((∀ m, (∃ t', in_column (task_coll st) c t' ∧ task_position t' = Some m) ↔
           (m = 0 ∨ m = 1 ∨ m = 2)) → p = 3) ∧
    (ObjectId (str_oid new) = Some new → out.1 = Return (J_task (str_oid new, t))).
Proof.
  intros _ Hpres c out.
  destruct (create_task_stored (TaskCreate_validate body) st) as (Hnew & Hst & _ & Hout).
  pose proof (column_end_max_plus_one_or_zero _ _ Hpres) as Hmax. fold c in Hmax.
  exists (fresh (dom (task_coll st))),
    (TaskSchema (TaskCreate_validate body) (column_end (task_coll st) c)),
    (column_end (task_coll st) c).
  split; [exact Hnew|]. split; [exact Hst|].
  split; [done|]. split; [done|]. split; [exact Hmax|].
  split; [|split; [|exact Hout]].
  - intros Hempty. destruct Hmax as [[_ ?]|(t & m & Ht & _)]; [done|].
    by destruct (Hempty t).
  - intros Hset. destruct Hmax as [[Hempty _]|(t & m & Ht & Hm & Hp & Hle)].
    + destruct (proj2 (Hset 2)) as (t' & Ht' & _); [auto|]. by destruct (Hempty t').
    + destruct (proj2 (Hset 2)) as (t' & Ht' & Hm'); [auto|].
      specialize (Hle t' 2 Ht' Hm').
      assert (m = 0 ∨ m = 1 ∨ m = 2) as Hcases by (apply Hset; by exists t).
      lia.
Qed.

(** C3: an Update Task request on a stored task, with a well-formed id.
    When the patch has a [column_id] and no [position], the task moves to
    that column with the end-of-column position computed on the store as it
    was before the update (the rule of task creation); when the patch has a
    [position], the task gets that position. *)
Theorem update_task_column_move (task_id : string) (o : oid) (payload : TaskUpdate)
    (t : Task) (st : store oid) :
  ObjectId task_id = Some o →
  task_coll st !! o = Some t →
  let out := update_task ObjectId str_oid task_id payload st in
  ∃ t',
    out.1 = Return (J_task (str_oid o, t')) ∧
    task_coll out.2 !! o = Some t' ∧
    (∀ o', o' ≠ o → task_coll out.2 !! o' = task_coll st !! o') ∧
    (∀ c, tu_column_id payload = Some c → tu_position payload = None →
       ∃ p, (end_of_column c st).1 = Return p ∧
            task_column_id t' = c ∧ task_position t' = Some p ∧
            (positions_present (task_coll st) c →
             max_plus_one_or_zero (task_coll st) c p)) ∧
    (∀ p, tu_position payload = Some p → task_position t' = Some p).
Proof.
  intros Hid Ht out. subst out. rewrite (update_task_run _ o) by done.
  cbn [fst snd task_coll]. rewrite Ht, lookup_alter_eq, Ht.
  eexists. split; [done|]. split; [done|].
  split; [intros o' Hne; by apply lookup_alter_ne|].
  unfold task_updates_sent. split.
  - intros c Hc Hp. rewrite Hc, Hp, end_of_column_run.
    exists (column_end (task_coll st) c). split; [done|].
    destruct (task_apply_set_move payload c (column_end (task_coll st) c) t Hc Hp)
      as [Hc' Hp'].
    split; [done|]. split; [done|]. apply column_end_max_plus_one_or_zero.
  - intros p Hp. rewrite Hp. destruct (tu_column_id payload);
      by apply task_apply_set_position.
Qed.

(** ** Every task written through the service carries a position *)

Lemma task_apply_set_keeps_position (updates : list task_set) (t : Task) :
  is_Some (task_position t) → is_Some (task_position (task_apply_set updates t)).
Proof.
  unfold task_apply_set. revert t.
  induction updates as [|u us IH]; intros t Ht; [done|].
  simpl. apply IH. by destruct u.
Qed.

Lemma route_tasks (r : request) (st : store oid) :
  let tasks := task_coll st in
  let tasks' := task_coll (route ObjectId str_oid r st).2 in
  match r with
  | POST_api_tasks payload =>
      tasks' = <[fresh (dom tasks) := TaskSchema payload (column_end tasks (tc_column_id payload))]> tasks
  | PATCH_api_tasks task_id payload =>
      match ObjectId task_id with
      | Some o => tasks' = alter (task_apply_set (task_updates_sent tasks payload)) o tasks
      | None => tasks' = tasks
      end
  | DELETE_api_tasks task_id =>
      match ObjectId task_id with
      | Some o => tasks' = delete o tasks
      | None => tasks' = tasks
      end
  | DELETE_api_columns column_id =>
      match ObjectId column_id with
      | Some o => tasks' = filter (λ d, task_matches (Q_column_id column_id) d.2 = false) tasks
      | None => tasks' = tasks
      end
  | _ => tasks' = tasks
  end.
Proof.
  destruct r.
  - by run_on st.
  - cbn [route]. by rewrite list_columns_run.
  - run_on st. by destruct (ObjectId _).
  - run_on st. destruct (ObjectId _); [|done].
    destruct (falsy_list _); [done|]. by destruct (_ !! _).
  - destruct (ObjectId column_id) as [o|] eqn:Hid.
    + cbn [route]. by rewrite (delete_column_run _ o).
    + by rewrite (route_invalid_id (DELETE_api_columns column_id) column column_id).
  - cbn [route]. by rewrite list_tasks_run.
  - by destruct (create_task_stored payload st) as (_ & ? & _).
  - destruct (ObjectId task_id) as [o|] eqn:Hid.
    + cbn [route]. by rewrite (update_task_run _ o).
    + by rewrite (route_invalid_id (PATCH_api_tasks task_id payload) task task_id).
  - destruct (ObjectId task_id) as [o|] eqn:Hid.
    + cbn [route]. by rewrite (delete_task_run _ o).
    + by rewrite (route_invalid_id (DELETE_api_tasks task_id) task task_id).
Qed.

Lemma route_keeps_positions (r : request) (st : store oid) :
  map_Forall (λ _ t, is_Some (task_position t)) (task_coll st) →
  map_Forall (λ _ t, is_Some (task_position t))
    (task_coll (route ObjectId str_oid r st).2).
Proof.
  intros Hst. pose proof (route_tasks r st) as Hr. cbv zeta in Hr.
  destruct r; try (by rewrite Hr);
    try (destruct (ObjectId _); rewrite Hr; [|done]).
  - intros k t [Hk _]%map_lookup_filter_Some. by eapply Hst.
  - rewrite Hr. apply map_Forall_insert_2; [by eexists|done].
  - intros k t Hk. rewrite lookup_alter in Hk. case_decide; [|by eapply Hst].
    subst. destruct (task_coll st !! k) as [t0|] eqn:Hk0; simplify_eq/=.
    eapply task_apply_set_keeps_position, Hst, Hk0.
  - by apply map_Forall_delete.
Qed.

Lemma positions_present_all (tasks : gmap oid Task) (c : string) :
  map_Forall (λ _ t, is_Some (task_position t)) tasks → positions_present tasks c.
Proof. intros Hall k t Hk _. by eapply Hall. Qed.

(** ** Listings *)

(** C8: List Columns takes no input and always returns a listing: all the
    stored columns, each once, ordered by [position] with a missing
    [position] read as 0, so that the positions never decrease along the
    listing. *)
Theorem list_columns_sorted (st : store oid) :
  ∃ docs,
    list_columns str_oid st = (Return (J_columns docs), logged st [Call_find column]) ∧
    docs ≡ₚ map (to_str_id str_oid) (map_to_list (column_coll st)) ∧
    ∀ (i j : nat) (a b : string * Column),
      (i < j)%nat → docs !! i = Some a → docs !! j = Some b →
      default 0 (col_position a.2) ≤ default 0 (col_position b.2).
Proof.
  eexists. split; [apply list_columns_run|].
  by apply (sort_by_key_listing column_position_key).
Qed.

(** C10: List Tasks with the empty string as [column_id] does what it does
    without the parameter: it drops the filter and returns all the tasks in
    position order; a non-empty [column_id] returns the tasks with that
    [column_id] only. *)
Theorem list_tasks_empty_column_id (st : store oid) :
  list_tasks str_oid (Some "") st = list_tasks str_oid None st ∧
  (∃ docs,
     list_tasks str_oid (Some "") st = (Return (J_tasks docs), logged st [Call_find task]) ∧
     docs ≡ₚ map (to_str_id str_oid) (map_to_list (task_coll st)) ∧
     ∀ (i j : nat) (a b : string * Task),
       (i < j)%nat → docs !! i = Some a → docs !! j = Some b →
       default 0 (task_position a.2) ≤ default 0 (task_position b.2)) ∧
  (∀ v, v ≠ "" →
     ∃ docs,
       list_tasks str_oid (Some v) st = (Return (J_tasks docs), logged st [Call_find task]) ∧
       docs ≡ₚ map (to_str_id str_oid)
                 (List.filter (λ d, bool_decide (task_column_id d.2 = v))
                    (map_to_list (task_coll st))) ∧
       ∀ (i j : nat) (a b : string * Task),
         (i < j)%nat → docs !! i = Some a → docs !! j = Some b →
         default 0 (task_position a.2) ≤ default 0 (task_position b.2)).
Proof.
  split; [by rewrite !list_tasks_run|]. split.
  - eexists. split; [apply list_tasks_run|]. simpl. rewrite filter_all.
    by apply (sort_by_key_listing task_position_key).
  - intros v Hv. rewrite list_tasks_run.
    destruct (decide (v = "")) as [|_]; [done|].
    eexists. split; [reflexivity|].
    by apply (sort_by_key_listing task_position_key).
Qed.

End BoardProperties.

(** ** The diagnostics endpoint *)

Module DiagnosticsFacts.
Import Diagnostics.

(** C9: the diagnostics endpoint returns a response for every condition of
    the store and raises nothing.  With no store handle the status says
    so; an exception raised by the store (while reading its name or while
    listing the collections) is rendered in the status text through its
    first 50 characters; at most 10 collection names are reported. *)
Theorem test_database_never_raises (db : option Database) (env : environ) :
  ∃ r,
    test_database db env = Value r ∧
    (length (collections r) ≤ 10)%nat ∧
    (length (database r) ≤ 75)%nat ∧
    match db with
    | None =>
        database r = warning_sign ++ ascii_text "  Available but not initialized" ∧
        collections r = []
    | Some d =>
        match name d with
        | Property (Exception e) =>
            database r = cross_mark ++ ascii_text " Error: " ++ slice_to 50 e ∧
            collections r = []
        | _ =>
            match list_collection_names d with
            | Value names =>
                database r = check_mark ++ ascii_text " Connected & Working" ∧
                collections r = slice_to 10 names
            | Exception e =>
                database r =
                  warning_sign ++ ascii_text "  Connected but Error: " ++ slice_to 50 e ∧
                collections r = []
            end
        end
    end.
Proof.
  unfold test_database, test_database_body.
  destruct db as [[[|[nm|e]] [names|e']]|];
    (eexists; split; [reflexivity|]); cbn;
    unfold slice_to; rewrite ?length_take; repeat split; lia.
Qed.

End DiagnosticsFacts.

(** ** The handlers on concrete boards *)

Example todo_id_parses : hex_ObjectId todo_id = Some todo_oid ∧ hex_str todo_oid = todo_id.
Proof. by vm_compute. Qed.

Example malformed_id : hex_ObjectId "not-an-id" = None.
Proof. reflexivity. Qed.

(** Positions {0,1,2} in the column give 3; an empty column gives 0. *)
Example create_task_after_0_1_2 :
  (create_task hex_ObjectId hex_str (TaskCreate_validate (create_body todo_id Absent)) board).1 =
  Return (J_task ("000000000000000000000005",
                  {| task_title := "new"; task_description := None;
                     task_column_id := todo_id; task_position := Some 3;
                     task_priority := "normal"; task_tags := [] |})).
Proof. by vm_compute. Qed.

Example create_task_in_empty_column :
  (create_task hex_ObjectId hex_str (TaskCreate_validate (create_body "empty" Absent)) board).1 =
  Return (J_task ("000000000000000000000005",
                  {| task_title := "new"; task_description := None;
                     task_column_id := "empty"; task_position := Some 0;
                     task_priority := "normal"; task_tags := [] |})).
Proof. by vm_compute. Qed.

(** C1, as stated, fails: a request that supplies position 7 for a column
    holding positions 0, 1 and 2 stores and returns a task at position 3. *)
Lemma create_task_explicit_position_dropped :
  let body := create_body todo_id (Given 7) in
  let out := create_task hex_ObjectId hex_str (TaskCreate_validate body) board in
  let t := {| task_title := "new"; task_description := None;
              task_column_id := todo_id; task_position := Some 3;
              task_priority := "normal"; task_tags := [] |} in
  tcb_position body = Given 7 ∧
  out.1 = Return (J_task ("000000000000000000000005", t)) ∧
  task_coll out.2 !! 5%N = Some t ∧
  task_coll board !! 5%N = None ∧
  task_position t ≠ Some 7.
Proof. by vm_compute. Qed.

(** C4: an Update Task request with an empty patch, on the stored task 4.
    The handler sends [update_one] with the empty [$set] to the store, reads
    the task back and returns it; it does not return [{"updated": False}]. *)
Theorem update_task_empty_patch_runs :
  let out := update_task hex_ObjectId hex_str "000000000000000000000004"
               empty_task_patch board in
  task_updates empty_task_patch = [] ∧
  out.1 = Return (J_task ("000000000000000000000004", a_task "done" 9)) ∧
  out.1 ≠ Return (J_updated false) ∧
  calls out.2 = [Call_update_one task; Call_find_one task] ∧
  existsb is_write (calls out.2) = true.
Proof. by vm_compute. Qed.

(** The same request for an id that is not stored: 404, where Update Column
    answers [{"updated": False}]. *)
Example update_task_empty_patch_missing :
  (update_task hex_ObjectId hex_str todo_id empty_task_patch board).1 =
    Raise (HTTPException 404 "Task not found") ∧
  (update_column hex_ObjectId hex_str "000000000000000000000004"
     (ColumnUpdate_validate empty_column_body) board).1 = Return (J_updated false).
Proof. by vm_compute. Qed.

(** C6, as stated, fails: an Update Column request with a well-formed id
    that matches no column and an empty patch is answered
    [{"updated": False}], not 404, and makes no store call. *)
Lemma update_column_missing_empty_patch :
  let r := PATCH_api_columns todo_id (ColumnUpdate_validate empty_column_body) in
  let out := route hex_ObjectId hex_str r empty_store in
  target r = Some (column, todo_id) ∧
  hex_ObjectId todo_id = Some todo_oid ∧
  column_coll empty_store !! todo_oid = None ∧
  out.1 = Return (J_updated false) ∧
  out.1 ≠ Raise (HTTPException 404 (not_found_detail column)) ∧
  calls out.2 = [].
Proof. by vm_compute. Qed.

(** ** The theorems at concrete requests *)

Lemma board_positions_present (c : string) : positions_present (task_coll board) c.
Proof.
  unfold positions_present, board; cbn [task_coll].
  repeat (apply map_Forall_insert_2; [intros _; by eexists|]).
  apply map_Forall_empty.
Defined.

Lemma update_column_empty_patch_witness :
  hex_ObjectId todo_id = Some todo_oid ∧
  column_coll empty_store !! todo_oid = None ∧
  update_column hex_ObjectId hex_str todo_id
    (ColumnUpdate_validate empty_column_body) empty_store =
    (Return (J_updated false), empty_store).
Proof.
  split; [reflexivity|]. split; [reflexivity|].
  apply (update_column_empty_patch hex_ObjectId hex_str todo_id todo_oid);
    reflexivity.
Defined.

Lemma delete_column_cascade_witness :
  let out := delete_column hex_ObjectId todo_id board in
  column_coll out.2 !! todo_oid = None ∧
  task_coll out.2 !! 1%N = None ∧
  task_coll out.2 !! 4%N = Some (a_task "done" 9) ∧
  out.1 = Return (J_deleted true).
Proof.
  intros out.
  destruct (delete_column_cascade hex_ObjectId todo_id todo_oid board eq_refl)
    as (Hcol & _ & Hdel & Hkeep & _ & _ & Hok & _).
  split; [exact Hcol|].
  split; [apply (Hdel 1%N (a_task todo_id 0)); reflexivity|].
  split; [apply (Hkeep 4%N (a_task "done" 9)); [reflexivity|discriminate]|].
  apply Hok. eexists. reflexivity.
Defined.

Lemma update_delete_id_errors_witness :
  route hex_ObjectId hex_str (DELETE_api_tasks "not-an-id") board =
    (Raise (HTTPException 400 "Invalid task id"), board) ∧
  route hex_ObjectId hex_str
    (PATCH_api_columns "not-an-id" (ColumnUpdate_validate empty_column_body)) board =
    (Raise (HTTPException 400 "Invalid column id"), board) ∧
  (route hex_ObjectId hex_str (PATCH_api_tasks todo_id (move_to "done")) board).1 =
    Raise (HTTPException 404 "Task not found") ∧
  route hex_ObjectId hex_str
    (PATCH_api_columns todo_id (ColumnUpdate_validate empty_column_body)) empty_store =
    (Return (J_updated false), empty_store).
Proof.
  split; [|split; [|split]].
  - apply (proj1 (update_delete_id_errors hex_ObjectId hex_str
             (DELETE_api_tasks "not-an-id") task "not-an-id" board eq_refl)).
    reflexivity.
  - apply (proj1 (update_delete_id_errors hex_ObjectId hex_str
             (PATCH_api_columns "not-an-id" (ColumnUpdate_validate empty_column_body))
             column "not-an-id" board eq_refl)).
    reflexivity.
  - apply (proj1 (proj2 (update_delete_id_errors hex_ObjectId hex_str
             (PATCH_api_tasks todo_id (move_to "done")) task todo_id board
             eq_refl)) todo_oid).
    + reflexivity.
    + intros [t Ht]. discriminate Ht.
    + reflexivity.
  - apply (proj2 (proj2 (update_delete_id_errors hex_ObjectId hex_str
             (PATCH_api_columns todo_id (ColumnUpdate_validate empty_column_body))
             column todo_id empty_store eq_refl)) todo_oid); reflexivity.
Defined.

Lemma create_task_position_not_used_witness :
  let out := create_task hex_ObjectId hex_str
               (TaskCreate_validate (create_body todo_id (Given 7))) board in
  out = create_task hex_ObjectId hex_str
          (TaskCreate_validate (create_body todo_id Absent)) board ∧
  ∃ new t p,
    task_coll out.2 = <[new := t]> (task_coll board) ∧
    task_position t = Some p ∧
    2 < p ∧
    max_plus_one_or_zero (task_coll board) todo_id p.
Proof.
  intros out.
  destruct (create_task_position_not_used hex_ObjectId hex_str "new" Absent todo_id
              Absent Absent (Given 7) Absent board)
    as (Heq & new & t & p & _ & _ & Hst & _ & Hp & _ & Habove & Hmax).
  split; [exact Heq|].
  exists new, t, p. split; [exact Hst|]. split; [exact Hp|]. split.
  - apply (Habove 2%N (a_task todo_id 2)); reflexivity.
  - apply Hmax, board_positions_present.
Defined.

Lemma create_task_end_of_column_witness :
  let body := create_body todo_id Absent in
  let out := create_task hex_ObjectId hex_str (TaskCreate_validate body) board in
  supplied (tcb_position body) = false ∧
  ∃ new t p,
    task_coll board !! new = None ∧
    task_coll out.2 = <[new := t]> (task_coll board) ∧
    task_position t = Some p ∧
    max_plus_one_or_zero (task_coll board) todo_id p.
Proof.
  intros body out. split; [reflexivity|].
  destruct (create_task_end_of_column hex_ObjectId hex_str body board eq_refl
              (board_positions_present todo_id))
    as (new & t & p & Hnew & Hst & _ & Hp & Hmax & _).
  exists new, t, p. repeat split; assumption.
Defined.

Lemma update_task_column_move_witness :
  let out := update_task hex_ObjectId hex_str "000000000000000000000004"
               (move_to todo_id) board in
  ∃ t' p,
    out.1 = Return (J_task ("000000000000000000000004", t')) ∧
    task_column_id t' = todo_id ∧ task_position t' = Some p ∧
    max_plus_one_or_zero (task_coll board) todo_id p.
Proof.
  intros out.
  destruct (update_task_column_move hex_ObjectId hex_str "000000000000000000000004"
              4%N (move_to todo_id) (a_task "done" 9) board eq_refl eq_refl)
    as (t' & Hout & _ & _ & Hmove & _).
  destruct (Hmove todo_id eq_refl eq_refl) as (p & _ & Hc & Hp & Hmax).
  exists t', p. split; [exact Hout|]. split; [exact Hc|]. split; [exact Hp|].
  apply Hmax, board_positions_present.
Defined.

Lemma list_tasks_empty_column_id_witness :
  list_tasks hex_str (Some "") board = list_tasks hex_str None board ∧
  ∃ docs, list_tasks hex_str (Some "done") board =
            (Return (J_tasks docs), logged board [Call_find task]).
Proof.
  destruct (list_tasks_empty_column_id hex_str board) as (Heq & _ & Hv).
  split; [exact Heq|].
  destruct (Hv "done") as (docs & Hd & _); [discriminate|].
  by exists docs.
Defined.

(** * Further properties of the handlers *)

Section BoardCoverage.

Context {oid : Type} `{Countable oid} `{Infinite oid}.
Variable ObjectId : string → option oid.
Variable str_oid : oid → string.

Ltac run :=
  cbv [route read_root list_columns create_column update_column delete_column
       list_tasks create_task update_task delete_task end_of_column
       ObjectId_400 ObjectId_exn create_document get_documents
       find find_one insert_one update_one delete_one delete_many
       read write log raise coll_name coll_get coll_put db_column db_task
       mbind mret handler_bind handler_ret logged
       column_coll task_coll calls].

Ltac run_on st := destruct st as [cols tasks hist]; run.

Lemma py_or_int_zero (x : option Z) : py_or falsy_int x 0 = default 0 x.
Proof.
  destruct x as [z|]; [|done]. unfold py_or, falsy_int. simpl.
  destruct (Z.eqb_spec z 0); congruence.
Qed.

Lemma create_column_run (payload : ColumnCreate) (st : store oid) :
  let new := fresh (dom (column_coll st)) in
  let col := {| col_name := cc_name payload;
                col_position := Some (default 0 (cc_position payload)) |} in
  let inserted := <[new := col]> (column_coll st) in
  create_column ObjectId str_oid payload st =
    match ObjectId (str_oid new) with
    | Some o =>
        (Return (to_str_id_opt str_oid J_column (pair o <$> inserted !! o)),
         {| column_coll := inserted; task_coll := task_coll st;
            calls := calls st ++ [Call_insert_one column; Call_find_one column] |})
    | None =>
        (Raise (InvalidId (str_oid new)),
         {| column_coll := inserted; task_coll := task_coll st;
            calls := calls st ++ [Call_insert_one column] |})
    end.
Proof.
  run_on st. rewrite py_or_int_zero.
  destruct (ObjectId _); by rewrite <- ?(assoc_L (++)).
Qed.

(** X1: Create Column stores one new column under an identifier that was
    not in use, with the name of the request and its position, a null
    position being stored as 0; the other columns and all tasks stay as they
    were, and when the new identifier parses back from its string form the
    answer is the stored column under that string. *)
Theorem create_column_stored (payload : ColumnCreate) (st : store oid) :
  let out := create_column ObjectId str_oid payload st in
  ∃ new c,
    column_coll st !! new = None ∧
    column_coll out.2 = <[new := c]> (column_coll st) ∧
    task_coll out.2 = task_coll st ∧
    col_name c = cc_name payload ∧
    col_position c = Some (match cc_position payload with Some p => p | None => 0 end) ∧
    (ObjectId (str_oid new) = Some new → out.1 = Return (J_column (str_oid new, c))).
Proof.
  intros out. subst out. rewrite create_column_run.
  eexists (fresh (dom (column_coll st))), _.
  split; [apply not_elem_of_dom, is_fresh|].
  destruct (ObjectId (str_oid _)) as [o|] eqn:Hid; cbn [fst snd column_coll task_coll].
  - do 4 (split; [done|]).
    intros [= ->]. by rewrite lookup_insert_eq.
  - do 4 (split; [done|]). done.
Qed.

(** X2: the task Create Task stores takes title, description and column_id
    from the request; its priority is never the empty string (a null or
    empty priority becomes "normal") and null tags become the empty list. *)
Theorem create_task_defaults (payload : TaskCreate) (st : store oid) :
  let out := create_task ObjectId str_oid payload st in
  ∃ new t,
    task_coll out.2 = <[new := t]> (task_coll st) ∧
    task_title t = tc_title payload ∧
    task_description t = tc_description payload ∧
    task_column_id t = tc_column_id payload ∧
    task_priority t ≠ "" ∧
    (tc_priority payload = None ∨ tc_priority payload = Some "" →
     task_priority t = "normal") ∧
    (∀ v, tc_priority payload = Some v → v ≠ "" → task_priority t = v) ∧
    task_tags t = match tc_tags payload with Some l => l | None => [] end.
Proof.
  intros out. subst out. rewrite create_task_run.
  eexists _, (TaskSchema payload _).
  split; [by destruct (ObjectId _)|].
  cbn [TaskSchema task_title task_description task_column_id task_priority task_tags].
  repeat (split; [done|]). split; [|split; [|split]].
  - destruct (tc_priority payload) as [v|]; [|done].
    unfold py_or, falsy_str. by destruct (decide (v = "")).
  - by intros [->| ->].
  - intros v -> Hv. unfold py_or, falsy_str. by destruct (decide (v = "")).
  - by destruct (tc_tags payload) as [[|]|].
Qed.

(** X3: Update Column on a stored column with a patch that gives at least
    one field: the fields given replace the stored ones (position 0 and the
    empty name included), the others keep their value, the answer is the
    updated column; no other column and no task changes. *)
Theorem update_column_partial (column_id : string) (o : oid) (payload : ColumnUpdate)
    (c : Column) (st : store oid) :
  ObjectId column_id = Some o →
  column_coll st !! o = Some c →
  is_Some (cu_name payload) ∨ is_Some (cu_position payload) →
  let out := update_column ObjectId str_oid column_id payload st in
  ∃ c',
    out.1 = Return (J_column (str_oid o, c')) ∧
    column_coll out.2 !! o = Some c' ∧
    col_name c' = default (col_name c) (cu_name payload) ∧
    col_position c' = match cu_position payload with
                      | Some p => Some p
                      | None => col_position c
                      end ∧
    (∀ o', o' ≠ o → column_coll out.2 !! o' = column_coll st !! o') ∧
    task_coll out.2 = task_coll st.
Proof.
  intros Hid Hc Hgiven out. subst out.
  rewrite (update_column_run _ _ _ o);
    [|done|destruct payload as [[?|] [?|]]; try done;
           by destruct Hgiven as [[? [=]]|[? [=]]]].
  cbn [fst snd column_coll task_coll]. rewrite Hc, lookup_alter_eq, Hc.
  eexists. split; [done|]. split; [done|].
  split; [by destruct payload as [[?|] [?|]]|].
  split; [by destruct payload as [[?|] [?|]]|].
  split; [|done]. intros o' Hne. by apply lookup_alter_ne.
Qed.

(** X4: Update Task on a stored task changes the fields the patch gives and
    no other: title, description, column_id, priority and tags keep their
    value when absent from the patch (so a description cannot be reset to
    null), and the position is kept when the patch has neither position nor
    column_id; the other tasks and the columns do not change. *)
Theorem update_task_partial (task_id : string) (o : oid) (payload : TaskUpdate)
    (t : Task) (st : store oid) :
  ObjectId task_id = Some o →
  task_coll st !! o = Some t →
  let out := update_task ObjectId str_oid task_id payload st in
  ∃ t',
    task_coll out.2 !! o = Some t' ∧
    task_title t' = default (task_title t) (tu_title payload) ∧
    task_description t' = match tu_description payload with
                          | Some d => Some d
                          | None => task_description t
                          end ∧
    task_column_id t' = default (task_column_id t) (tu_column_id payload) ∧
    task_priority t' = default (task_priority t) (tu_priority payload) ∧
    task_tags t' = default (task_tags t) (tu_tags payload) ∧
    (tu_column_id payload = None → tu_position payload = None →
     task_position t' = task_position t) ∧
    (∀ o', o' ≠ o → task_coll out.2 !! o' = task_coll st !! o') ∧
    column_coll out.2 = column_coll st.
Proof.
  intros Hid Ht out. subst out. rewrite (update_task_run _ _ _ o) by done.
  cbn [fst snd column_coll task_coll]. rewrite lookup_alter_eq, Ht.
  eexists. split; [done|]. unfold task_updates_sent.
  repeat (split; [by destruct payload as [[?|] [?|] [?|] [?|] [?|] [?|]]|]).
  split; [|done]. intros o' Hne. by apply lookup_alter_ne.
Qed.

(** ** Deleting *)

(** X5: Delete Task with a well-formed id of a stored task answers
    [{"deleted": True}], removes that task and nothing else, and makes one
    [delete_one] call; repeating the request answers 404 and changes no
    collection. *)
Theorem delete_task_then_again (task_id : string) (o : oid) (t : Task) (st : store oid) :
  ObjectId task_id = Some o →
  task_coll st !! o = Some t →
  let out := delete_task ObjectId task_id st in
  let again := delete_task ObjectId task_id out.2 in
  out.1 = Return (J_deleted true) ∧
  task_coll out.2 !! o = None ∧
  (∀ o', o' ≠ o → task_coll out.2 !! o' = task_coll st !! o') ∧
  column_coll out.2 = column_coll st ∧
  calls out.2 = calls st ++ [Call_delete_one task] ∧
  again.1 = Raise (HTTPException 404 "Task not found") ∧
  task_coll again.2 = task_coll out.2 ∧
  column_coll again.2 = column_coll out.2.
Proof.
  intros Hid Ht out again. subst again out.
  rewrite !(delete_task_run _ _ o) by done.
  cbn [fst snd column_coll task_coll calls]. rewrite Ht, !lookup_delete_eq.
  split; [done|]. split; [done|].
  split; [intros o' Hne; by apply lookup_delete_ne|].
  split; [done|]. split; [done|]. split; [done|].
  split; [|done]. apply delete_id, lookup_delete_eq.
Qed.

(** X6: after a Delete Column request with a well-formed id, whatever it
    answered, the same request again answers 404 and changes neither the
    columns nor the tasks: the cascade finds nothing left to delete. *)
Theorem delete_column_again (column_id : string) (o : oid) (st : store oid) :
  ObjectId column_id = Some o →
  let out := delete_column ObjectId column_id st in
  let again := delete_column ObjectId column_id out.2 in
  again.1 = Raise (HTTPException 404 "Column not found") ∧
  column_coll again.2 = column_coll out.2 ∧
  task_coll again.2 = task_coll out.2.
Proof.
  intros Hid out again. subst again out.
  rewrite !(delete_column_run _ _ o) by done.
  cbn [fst snd column_coll task_coll calls]. rewrite lookup_delete_eq.
  split; [done|]. split; [apply delete_id, lookup_delete_eq|].
  apply map_filter_id. intros k t Hk.
  by apply map_lookup_filter_Some in Hk as [_ Hq].
Qed.

Lemma filter_none {A} (f : A → bool) (l : list A) :
  (∀ x, x ∈ l → f x = false) → List.filter f l = [].
Proof.
  induction l as [|x l IH]; intros Hl; [done|]. simpl.
  rewrite (Hl x) by left. apply IH. intros y Hy. apply Hl. by right.
Qed.

(** X7: after a Delete Column request with a well-formed, non-empty id,
    listing the tasks of that column returns the empty list. *)
Theorem delete_column_then_list_tasks (column_id : string) (o : oid) (st : store oid) :
  ObjectId column_id = Some o →
  column_id ≠ "" →
  (list_tasks str_oid (Some column_id) (delete_column ObjectId column_id st).2).1 =
    Return (J_tasks []).
Proof.
  intros Hid Hne. rewrite (delete_column_run _ _ o), list_tasks_run by done.
  cbn [fst task_coll]. destruct (decide (column_id = "")) as [|_]; [done|].
  rewrite filter_none; [done|].
  intros [k t] Hin. apply elem_of_map_to_list in Hin.
  by apply map_lookup_filter_Some in Hin as [_ Hq].
Qed.

(** ** Positions *)

Lemma column_end_above (tasks : gmap oid Task) (c : string) (k : oid) (t : Task) (m : Z) :
  tasks !! k = Some t → task_column_id t = c → task_position t = Some m →
  m < column_end tasks c.
Proof.
  intros Hk Hc Hm.
  destruct (column_end_cases tasks c) as [[Hempty _]|(tmax & _ & -> & Hmax)].
  - destruct (Hempty t). by exists k.
  - assert (Hle : position_le (task_position t) (task_position tmax) = true)
      by (apply Hmax; by exists k).
    rewrite Hm in Hle. unfold task_position_key.
    destruct (task_position tmax) as [M|]; simpl in *; [lia|done].
Qed.

(** X8: the position Create Task assigns is strictly greater than the
    position of every task already in the column that has one. *)
Theorem create_task_above_column (payload : TaskCreate) (st : store oid) :
  let out := create_task ObjectId str_oid payload st in
  ∃ new t p,
    task_coll out.2 = <[new := t]> (task_coll st) ∧
    task_coll st !! new = None ∧
    task_position t = Some p ∧
    ∀ k t' m, task_coll st !! k = Some t' →
              task_column_id t' = tc_column_id payload →
              task_position t' = Some m → m < p.
Proof.
  intros out.
  destruct (create_task_stored ObjectId str_oid payload st) as (Hnew & Hst & _ & _).
  eexists _, _, _. split; [exact Hst|]. split; [exact Hnew|]. split; [done|].
  intros k t' m. exact (column_end_above _ _ k t' m).
Qed.

(** X9: an Update Task request that moves a stored task to a column without
    giving a position puts it strictly after every task that was in the
    target column with a position; when the target is the column the task
    is already in, its own position counts, so its position grows. *)
Theorem update_task_move_above (task_id : string) (o : oid) (payload : TaskUpdate)
    (c : string) (t : Task) (st : store oid) :
  ObjectId task_id = Some o →
  task_coll st !! o = Some t →
  tu_column_id payload = Some c →
  tu_position payload = None →
  let out := update_task ObjectId str_oid task_id payload st in
  ∃ t' p,
    task_coll out.2 !! o = Some t' ∧
    task_column_id t' = c ∧
    task_position t' = Some p ∧
    (∀ k t0 m, task_coll st !! k = Some t0 → task_column_id t0 = c →
               task_position t0 = Some m → m < p) ∧
    (∀ m, task_column_id t = c → task_position t = Some m → m < p).
Proof.
  intros Hid Ht Hc Hp out. subst out. rewrite (update_task_run _ _ _ o) by done.
  cbn [fst snd task_coll]. rewrite lookup_alter_eq, Ht.
  unfold task_updates_sent. rewrite Hc, Hp.
  destruct (task_apply_set_move payload c (column_end (task_coll st) c) t Hc Hp)
    as [Hc' Hp'].
  eexists _, _. split; [done|]. split; [exact Hc'|]. split; [exact Hp'|].
  split.
  - intros k t0 m. exact (column_end_above _ _ k t0 m).
  - intros m. exact (column_end_above _ _ o t m Ht).
Qed.

(** X10: two Create Task requests for the same column, one after the other,
    store two tasks under different identifiers at consecutive positions. *)
Theorem create_task_twice (payload1 payload2 : TaskCreate) (st : store oid) :
  tc_column_id payload1 = tc_column_id payload2 →
  let out1 := create_task ObjectId str_oid payload1 st in
  let out2 := create_task ObjectId str_oid payload2 out1.2 in
  ∃ new1 t1 new2 t2 p,
    task_coll out2.2 = <[new2 := t2]> (<[new1 := t1]> (task_coll st)) ∧
    new1 ≠ new2 ∧
    task_position t1 = Some p ∧
    task_position t2 = Some (p + 1).
Proof.
  intros Hcol out1 out2.
  destruct (create_task_stored ObjectId str_oid payload1 st) as (Hnew1 & Hst1 & _ & _).
  destruct (create_task_stored ObjectId str_oid payload2 out1.2) as (Hnew2 & Hst2 & _ & _).
  fold out1 in Hst1. fold out2 in Hst2. rewrite Hst1 in Hst2, Hnew2.
  set (c := tc_column_id payload1) in *.
  set (p := column_end (task_coll st) c) in *.
  set (new1 := fresh (dom (task_coll st))) in *.
  set (t1 := TaskSchema payload1 p) in *.
  set (tasks1 := <[new1 := t1]> (task_coll st)) in *.
  exists new1, t1, (fresh (dom tasks1)),
    (TaskSchema payload2 (column_end tasks1 (tc_column_id payload2))), p.
  split; [exact Hst2|]. split.
  { intros Heq. rewrite <- Heq in Hnew2. subst tasks1.
    by rewrite lookup_insert_eq in Hnew2. }
  split; [done|]. cbn [TaskSchema task_position]. f_equal.
  rewrite <- Hcol. fold c.
  destruct (column_end_cases tasks1 c) as [[Hempty _]|(tmax & [k [Hk Hkc]] & -> & Hmax)].
  { destruct (Hempty t1). exists new1. split; [apply lookup_insert_eq|done]. }
  assert (Hle : position_le (task_position t1) (task_position tmax) = true).
  { apply Hmax. exists new1. split; [apply lookup_insert_eq|done]. }
  cbn [t1 TaskSchema task_position] in Hle. unfold task_position_key.
  destruct (task_position tmax) as [M|] eqn:HM; simpl in Hle; [|done].
  simpl. apply Z.leb_le in Hle.
  subst tasks1. rewrite lookup_insert in Hk. case_decide as Hkn.
  - injection Hk as <-. cbn [t1 TaskSchema task_position] in HM. congruence.
  - pose proof (column_end_above (task_coll st) c k tmax M Hk Hkc HM). lia.
Qed.

(** ** What the routes leave alone *)

Lemma route_columns (r : request) (st : store oid) :
  let cols := column_coll st in
  let cols' := column_coll (route ObjectId str_oid r st).2 in
  match r with
  | POST_api_columns payload =>
      cols' = <[fresh (dom cols) :=
                 {| col_name := cc_name payload;
                    col_position := Some (default 0 (cc_position payload)) |}]> cols
  | PATCH_api_columns column_id payload =>
      match ObjectId column_id with
      | Some o => cols' = cols ∨
                  cols' = alter (column_apply_set (column_updates payload)) o cols
      | None => cols' = cols
      end
  | DELETE_api_columns column_id =>
      match ObjectId column_id with
      | Some o => cols' = delete o cols
      | None => cols' = cols
      end
  | _ => cols' = cols
  end.
Proof.
  destruct r.
  - by run_on st.
  - cbn [route]. by rewrite list_columns_run.
  - cbn [route]. rewrite create_column_run. by destruct (ObjectId _).
  - destruct (ObjectId column_id) as [o|] eqn:Hid.
    + cbn [route]. destruct (column_updates payload) as [|u us] eqn:Hu.
      * left. by rewrite (update_column_empty _ _ _ o).
      * right. rewrite (update_column_run _ _ _ o), Hu; [done..|]. by rewrite Hu.
    + by rewrite (route_invalid_id _ _ (PATCH_api_columns column_id payload) column column_id).
  - destruct (ObjectId column_id) as [o|] eqn:Hid.
    + cbn [route]. by rewrite (delete_column_run _ _ o).
    + by rewrite (route_invalid_id _ _ (DELETE_api_columns column_id) column column_id).
  - cbn [route]. by rewrite list_tasks_run.
  - cbn [route]. rewrite create_task_run. by destruct (ObjectId _).
  - destruct (ObjectId task_id) as [o|] eqn:Hid.
    + cbn [route]. by rewrite (update_task_run _ _ _ o).
    + by rewrite (route_invalid_id _ _ (PATCH_api_tasks task_id payload) task task_id).
  - destruct (ObjectId task_id) as [o|] eqn:Hid.
    + cbn [route]. by rewrite (delete_task_run _ _ o).
    + by rewrite (route_invalid_id _ _ (DELETE_api_tasks task_id) task task_id).
Qed.

(** X11: the task routes and the two listings and the root route never
    change the column collection; the column routes other than Delete
    Column, the listings and the root route never change the task
    collection. *)
Theorem route_frame (r : request) (st : store oid) :
  let out := route ObjectId str_oid r st in
  match r with
  | POST_api_columns _ | PATCH_api_columns _ _ => task_coll out.2 = task_coll st
  | DELETE_api_columns _ => True
  | POST_api_tasks _ | PATCH_api_tasks _ _ | DELETE_api_tasks _ =>
      column_coll out.2 = column_coll st
  | GET_root | GET_api_columns | GET_api_tasks _ =>
      column_coll out.2 = column_coll st ∧ task_coll out.2 = task_coll st
  end.
Proof.
  intros out. subst out.
  pose proof (route_columns r st) as Hc. pose proof (route_tasks ObjectId str_oid r st) as Ht.
  cbv zeta in Hc, Ht. by destruct r.
Qed.

(** X12: an update request never adds or removes a document: after Update
    Column or Update Task, with any id and any patch, both collections hold
    documents under exactly the identifiers they held before. *)
Theorem update_keeps_identifiers (r : request) (st : store oid) :
  (∃ id payload, r = PATCH_api_columns id payload) ∨
  (∃ id payload, r = PATCH_api_tasks id payload) →
  let out := route ObjectId str_oid r st in
  dom (column_coll out.2) = dom (column_coll st) ∧
  dom (task_coll out.2) = dom (task_coll st).
Proof.
  intros Hr out. subst out.
  pose proof (route_columns r st) as Hc. pose proof (route_tasks ObjectId str_oid r st) as Ht.
  cbv zeta in Hc, Ht.
  destruct Hr as [(id & payload & ->)|(id & payload & ->)].
  - rewrite Ht. split; [|done].
    destruct (ObjectId id); [destruct Hc as [-> | ->]|by rewrite Hc];
      [done|apply dom_alter_L].
  - rewrite Hc. split; [done|].
    destruct (ObjectId id); rewrite Ht; [apply dom_alter_L|done].
Qed.

(** X13: the only HTTP errors the board routes raise are the two of the
    update and delete routes: 400 with the route's "Invalid ... id" detail,
    exactly when the path id does not parse, with the store and its call log
    untouched; and 404 with the "... not found" detail, for a well-formed id
    under which the target collection held no document. *)
Theorem http_errors (r : request) (st : store oid) (status_code : Z) (detail : string) :
  (route ObjectId str_oid r st).1 = Raise (HTTPException status_code detail) →
  ∃ c id,
    target r = Some (c, id) ∧
    ((status_code = 400 ∧ detail = invalid_id_detail c ∧ ObjectId id = None ∧
      (route ObjectId str_oid r st).2 = st) ∨
     (status_code = 404 ∧ detail = not_found_detail c ∧
      ∃ o, ObjectId id = Some o ∧ ¬ holds st c o)).
Proof.
  destruct r; cbn [target].
  - by run_on st.
  - cbn [route]. by rewrite list_columns_run.
  - cbn [route]. rewrite create_column_run. by destruct (ObjectId _).
  - intros Hr. exists column, column_id. split; [done|].
    destruct (ObjectId column_id) as [o|] eqn:Hid.
    + right. cbn [route] in Hr.
      destruct (column_updates payload) as [|u us] eqn:Hu.
      { by rewrite (update_column_empty _ _ _ o) in Hr. }
      rewrite (update_column_run _ _ _ o) in Hr; [|done|by rewrite Hu].
      cbn [fst] in Hr. destruct (column_coll st !! o) eqn:Hc; [done|].
      injection Hr as <- <-. repeat split. exists o. split; [done|].
      unfold holds. by rewrite Hc, <- eq_None_not_Some.
    + left.
      rewrite (route_invalid_id _ _ (PATCH_api_columns column_id payload) column column_id)
        in Hr |- * by done.
      by injection Hr as <- <-.
  - intros Hr. exists column, column_id. split; [done|].
    destruct (ObjectId column_id) as [o|] eqn:Hid.
    + right. cbn [route] in Hr. rewrite (delete_column_run _ _ o) in Hr by done.
      cbn [fst] in Hr. destruct (column_coll st !! o) eqn:Hc; [done|].
      injection Hr as <- <-. repeat split. exists o. split; [done|].
      unfold holds. by rewrite Hc, <- eq_None_not_Some.
    + left.
      rewrite (route_invalid_id _ _ (DELETE_api_columns column_id) column column_id)
        in Hr |- * by done.
      by injection Hr as <- <-.
  - cbn [route]. by rewrite list_tasks_run.
  - cbn [route]. rewrite create_task_run. by destruct (ObjectId _).
  - intros Hr. exists task, task_id. split; [done|].
    destruct (ObjectId task_id) as [o|] eqn:Hid.
    + right. cbn [route] in Hr. rewrite (update_task_run _ _ _ o) in Hr by done.
      cbn [fst] in Hr. destruct (task_coll st !! o) eqn:Hc; [done|].
      injection Hr as <- <-. repeat split. exists o. split; [done|].
      unfold holds. by rewrite Hc, <- eq_None_not_Some.
    + left.
      rewrite (route_invalid_id _ _ (PATCH_api_tasks task_id payload) task task_id)
        in Hr |- * by done.
      by injection Hr as <- <-.
  - intros Hr. exists task, task_id. split; [done|].
    destruct (ObjectId task_id) as [o|] eqn:Hid.
    + right. cbn [route] in Hr. rewrite (delete_task_run _ _ o) in Hr by done.
      cbn [fst] in Hr. destruct (task_coll st !! o) eqn:Hc; [done|].
      injection Hr as <- <-. repeat split. exists o. split; [done|].
      unfold holds. by rewrite Hc, <- eq_None_not_Some.
    + left.
      rewrite (route_invalid_id _ _ (DELETE_api_tasks task_id) task task_id)
        in Hr |- * by done.
      by injection Hr as <- <-.
Qed.

(** ** Creating, then deleting *)

(** X14: when the identifier the store assigns parses back from its string
    form, Create Column answers with the new column, and a Delete Column
    request for the id of that answer succeeds and leaves the column
    collection as it was before the creation. *)
Theorem create_then_delete_column (payload : ColumnCreate) (st : store oid) :
  ObjectId (str_oid (fresh (dom (column_coll st)))) = Some (fresh (dom (column_coll st))) →
  let out := create_column ObjectId str_oid payload st in
  ∃ id c,
    out.1 = Return (J_column (id, c)) ∧
    let out' := delete_column ObjectId id out.2 in
    out'.1 = Return (J_deleted true) ∧
    column_coll out'.2 = column_coll st.
Proof.
  intros Hid out. subst out. rewrite create_column_run, Hid.
  cbn [fst snd]. rewrite lookup_insert_eq. eexists _, _. split; [done|].
  cbv zeta. rewrite (delete_column_run _ _ _ _ Hid).
  cbn [fst snd column_coll]. rewrite lookup_insert_eq. split; [done|].
  apply delete_insert_id, not_elem_of_dom, is_fresh.
Qed.

(** X15: the same for tasks: Create Task answers with the new task, and a
    Delete Task request for the id of that answer succeeds and leaves both
    collections as they were before the creation. *)
Theorem create_then_delete_task (payload : TaskCreate) (st : store oid) :
  ObjectId (str_oid (fresh (dom (task_coll st)))) = Some (fresh (dom (task_coll st))) →
  let out := create_task ObjectId str_oid payload st in
  ∃ id t,
    out.1 = Return (J_task (id, t)) ∧
    let out' := delete_task ObjectId id out.2 in
    out'.1 = Return (J_deleted true) ∧
    task_coll out'.2 = task_coll st ∧
    column_coll out'.2 = column_coll st.
Proof.
  intros Hid out. subst out. rewrite create_task_run, Hid.
  cbn [fst snd]. rewrite lookup_insert_eq. eexists _, _. split; [done|].
  cbv zeta. rewrite (delete_task_run _ _ _ _ Hid).
  cbn [fst snd column_coll task_coll]. rewrite lookup_insert_eq. split; [done|].
  split; [|done]. apply delete_insert_id, not_elem_of_dom, is_fresh.
Qed.

(** ** Positions are always stored *)

Lemma column_apply_set_keeps_position (updates : list column_set) (c : Column) :
  is_Some (col_position c) → is_Some (col_position (column_apply_set updates c)).
Proof.
  unfold column_apply_set. revert c.
  induction updates as [|u us IH]; intros c Hc; [done|].
  simpl. apply IH. by destruct u.
Qed.

Lemma route_keeps_column_positions (r : request) (st : store oid) :
  map_Forall (λ _ c, is_Some (col_position c)) (column_coll st) →
  map_Forall (λ _ c, is_Some (col_position c))
    (column_coll (route ObjectId str_oid r st).2).
Proof.
  intros Hst. pose proof (route_columns r st) as Hr. cbv zeta in Hr.
  destruct r; try (by rewrite Hr).
  - rewrite Hr. apply map_Forall_insert_2; [by eexists|done].
  - destruct (ObjectId _); [|by rewrite Hr]. destruct Hr as [-> | ->]; [done|].
    intros k c Hk. rewrite lookup_alter in Hk. case_decide; [|by eapply Hst].
    subst. destruct (column_coll st !! k) as [c0|] eqn:Hk0; simplify_eq/=.
    eapply column_apply_set_keeps_position, Hst, Hk0.
  - destruct (ObjectId _); rewrite Hr; [|done]. by apply map_Forall_delete.
Qed.

(** X16: starting from empty collections, after any sequence of requests to
    the board routes every stored column and every stored task has a
    [position] field: the defaults of [c.get("position", 0)] and
    [d.get("position", 0)] are never needed for documents the service
    wrote. *)
Theorem positions_always_stored (requests : list request) :
  let st := fold_left (λ s r, (route ObjectId str_oid r s).2) requests
              {| column_coll := ∅; task_coll := ∅; calls := [] |} in
  map_Forall (λ _ c, is_Some (col_position c)) (column_coll st) ∧
  map_Forall (λ _ t, is_Some (task_position t)) (task_coll st).
Proof.
  cbv zeta.
  assert (Hgen : ∀ s : store oid,
    map_Forall (λ _ c, is_Some (col_position c)) (column_coll s) ∧
    map_Forall (λ _ t, is_Some (task_position t)) (task_coll s) →
    map_Forall (λ _ c, is_Some (col_position c))
      (column_coll (fold_left (λ s r, (route ObjectId str_oid r s).2) requests s)) ∧
    map_Forall (λ _ t, is_Some (task_position t))
      (task_coll (fold_left (λ s r, (route ObjectId str_oid r s).2) requests s))).
  { induction requests as [|r rs IH]; intros s [Hc Ht]; [done|].
    simpl. apply IH. split.
    - by apply route_keeps_column_positions.
    - by apply route_keeps_positions. }
  apply Hgen. split; apply map_Forall_empty.
Qed.

(** ** Creating, then listing *)

Lemma elem_of_rendered_listing {D} (key : D → Z) (l : list (oid * D)) (d : oid * D) :
  d ∈ l → to_str_id str_oid d ∈ map (to_str_id str_oid) (sort_by (key_le key) l).
Proof.
  intros Hd. change (map ?f ?k) with (f <$> k).
  apply list_elem_of_fmap_2. by rewrite sort_by_Permutation.
Qed.

(** X19: a column just created is in the next listing of the columns, under
    the string form of its identifier and with the name of the request. *)
Theorem create_column_then_list (payload : ColumnCreate) (st : store oid) :
  let out := create_column ObjectId str_oid payload st in
  ∃ new c docs,
    column_coll st !! new = None ∧
    column_coll out.2 !! new = Some c ∧
    col_name c = cc_name payload ∧
    (list_columns str_oid out.2).1 = Return (J_columns docs) ∧
    (str_oid new, c) ∈ docs.
Proof.
  intros out.
  assert (Hst : column_coll out.2 =
                <[fresh (dom (column_coll st)) :=
                   {| col_name := cc_name payload;
                      col_position := Some (default 0 (cc_position payload)) |}]>
                  (column_coll st)).
  { subst out. rewrite create_column_run. by destruct (ObjectId _). }
  eexists _, _. rewrite list_columns_run. eexists.
  split; [apply not_elem_of_dom, is_fresh|].
  split; [by rewrite Hst, lookup_insert_eq|].
  split; [done|]. split; [done|].
  apply (elem_of_rendered_listing column_position_key _ (_, _)).
  apply elem_of_map_to_list. by rewrite Hst, lookup_insert_eq.
Qed.

(** X20: a task just created is in the next listing of the tasks filtered
    by its own [column_id] (and in the unfiltered listing when that
    [column_id] is the empty string). *)
Theorem create_task_then_list (payload : TaskCreate) (st : store oid) :
  let out := create_task ObjectId str_oid payload st in
  ∃ new t docs,
    task_coll st !! new = None ∧
    task_coll out.2 !! new = Some t ∧
    (list_tasks str_oid (Some (tc_column_id payload)) out.2).1 = Return (J_tasks docs) ∧
    (str_oid new, t) ∈ docs.
Proof.
  intros out.
  destruct (create_task_stored ObjectId str_oid payload st) as (Hnew & Hst & _ & _).
  fold out in Hst. eexists _, _. rewrite list_tasks_run. eexists.
  split; [exact Hnew|]. split; [by rewrite Hst, lookup_insert_eq|].
  split; [done|].
  apply (elem_of_rendered_listing task_position_key _ (_, _)).
  rewrite list_elem_of_In, filter_In, <- list_elem_of_In, elem_of_map_to_list.
  split; [by rewrite Hst, lookup_insert_eq|].
  cbn [snd TaskSchema task_column_id]. destruct (decide _); [done|].
  by apply bool_decide_eq_true.
Qed.

End BoardCoverage.

(** ** More on the diagnostics endpoint *)

Module DiagnosticsCoverage.
Import Diagnostics.

(** X17: whatever the store handle does, the [database_url] and
    [database_name] fields of the diagnostics response tell only whether
    the environment variables DATABASE_URL and DATABASE_NAME are set to a
    non-empty value; the values written from the handle earlier on
    ("Configured", the store's own name) never reach the response. *)
Theorem test_database_reports_environment (db : option Database) (env : environ) :
  ∃ r,
    test_database db env = Value r ∧
    backend r = check_mark ++ ascii_text " Running" ∧
    database_url r = Some (match DATABASE_URL env with
                           | Some (_ :: _) => check_mark ++ ascii_text " Set"
                           | _ => cross_mark ++ ascii_text " Not Set"
                           end) ∧
    database_name r = Some (match DATABASE_NAME env with
                            | Some (_ :: _) => check_mark ++ ascii_text " Set"
                            | _ => cross_mark ++ ascii_text " Not Set"
                            end).
Proof.
  unfold test_database, test_database_body.
  destruct env as [u n], db as [[[|[nm|e]] [names|e']]|];
    cbv -[set_or_not slice_to ascii_text check_mark cross_mark warning_sign app];
    (eexists; split; [reflexivity|]);
    cbn [backend database_url database_name]; (split; [reflexivity|]);
    unfold set_or_not, truthy_env; split; f_equal;
    first [by destruct u as [[|? ?]|] | by destruct n as [[|? ?]|]].
Qed.

(** X18: [connection_status] is "Connected" exactly when there is a store
    handle and reading its name did not raise; it stays "Connected" when
    listing the collections fails, in which case the [database] field
    carries the error. *)
Theorem test_database_connection_status (db : option Database) (env : environ) :
  ∃ r,
    test_database db env = Value r ∧
    connection_status r =
      match db with
      | Some d =>
          match name d with
          | Property (Exception _) => ascii_text "Not Connected"
          | _ => ascii_text "Connected"
          end
      | None => ascii_text "Not Connected"
      end ∧
    ∀ d e, db = Some d → list_collection_names d = Exception e →
           (∀ e', name d ≠ Property (Exception e')) →
           connection_status r = ascii_text "Connected" ∧
           database r =
             warning_sign ++ ascii_text "  Connected but Error: " ++ slice_to 50 e.
Proof.
  unfold test_database, test_database_body.
  destruct db as [[[|[nm|e]] [names|e']]|];
    cbv -[set_or_not slice_to ascii_text check_mark cross_mark warning_sign app];
    (eexists; split; [reflexivity|]);
    cbn [connection_status database]; (split; [reflexivity|]);
    intros d e0 [= <-] Hl Hn; cbn [list_collection_names name] in Hl, Hn;
    try discriminate Hl; try (by destruct (Hn e));
    injection Hl as <-; by split.
Qed.

End DiagnosticsCoverage.

(** ** The further properties at concrete requests *)

Lemma update_column_partial_witness :
  let out := update_column hex_ObjectId hex_str todo_id
               {| cu_name := None; cu_position := Some 0 |} board in
  ∃ c', column_coll out.2 !! todo_oid = Some c' ∧
        col_name c' = "Todo" ∧ col_position c' = Some 0.
Proof.
  intros out.
  destruct (update_column_partial hex_ObjectId hex_str todo_id todo_oid
              {| cu_name := None; cu_position := Some 0 |}
              {| col_name := "Todo"; col_position := Some 0 |} board
              eq_refl eq_refl (or_intror (ex_intro _ 0 eq_refl)))
    as (c' & _ & Hc & Hn & Hp & _).
  exists c'. split; [exact Hc|]. split; [exact Hn|exact Hp].
Defined.

Lemma update_task_partial_witness :
  let out := update_task hex_ObjectId hex_str "000000000000000000000004"
               {| tu_title := Some "renamed"; tu_description := None;
                  tu_column_id := None; tu_position := None;
                  tu_priority := None; tu_tags := None |} board in
  ∃ t', task_coll out.2 !! 4%N = Some t' ∧ task_title t' = "renamed" ∧
        task_column_id t' = "done" ∧ task_position t' = Some 9.
Proof.
  intros out.
  destruct (update_task_partial hex_ObjectId hex_str "000000000000000000000004" 4%N
              {| tu_title := Some "renamed"; tu_description := None;
                 tu_column_id := None; tu_position := None;
                 tu_priority := None; tu_tags := None |}
              (a_task "done" 9) board eq_refl eq_refl)
    as (t' & Ht & Htitle & _ & Hc & _ & _ & Hp & _).
  exists t'. split; [exact Ht|]. split; [exact Htitle|]. split; [exact Hc|].
  exact (Hp eq_refl eq_refl).
Defined.

Lemma delete_task_then_again_witness :
  let out := delete_task hex_ObjectId "000000000000000000000004" board in
  out.1 = Return (J_deleted true) ∧
  (delete_task hex_ObjectId "000000000000000000000004" out.2).1 =
    Raise (HTTPException 404 "Task not found").
Proof.
  intros out.
  destruct (delete_task_then_again hex_ObjectId "000000000000000000000004" 4%N
              (a_task "done" 9) board eq_refl eq_refl)
    as (Hout & _ & _ & _ & _ & Hagain & _).
  split; [exact Hout|exact Hagain].
Defined.

Lemma delete_column_again_witness :
  (delete_column hex_ObjectId todo_id (delete_column hex_ObjectId todo_id board).2).1 =
    Raise (HTTPException 404 "Column not found").
Proof.
  exact (proj1 (delete_column_again hex_ObjectId todo_id todo_oid board eq_refl)).
Defined.

Lemma delete_column_then_list_tasks_witness :
  (list_tasks hex_str (Some todo_id) (delete_column hex_ObjectId todo_id board).2).1 =
    Return (J_tasks []).
Proof.
  apply (delete_column_then_list_tasks hex_ObjectId hex_str todo_id todo_oid board).
  - reflexivity.
  - discriminate.
Defined.

Lemma update_task_move_above_witness :
  let out := update_task hex_ObjectId hex_str "000000000000000000000001"
               (move_to todo_id) board in
  ∃ t' p, task_coll out.2 !! 1%N = Some t' ∧ task_position t' = Some p ∧ 0 < p.
Proof.
  intros out.
  destruct (update_task_move_above hex_ObjectId hex_str "000000000000000000000001" 1%N
              (move_to todo_id) todo_id (a_task todo_id 0) board
              eq_refl eq_refl eq_refl eq_refl)
    as (t' & p & Ht & _ & Hp & _ & Hown).
  exists t', p. split; [exact Ht|]. split; [exact Hp|].
  exact (Hown 0 eq_refl eq_refl).
Defined.

Lemma create_task_twice_witness :
  let payload := TaskCreate_validate (create_body todo_id Absent) in
  let out1 := create_task hex_ObjectId hex_str payload board in
  let out2 := create_task hex_ObjectId hex_str payload out1.2 in
  ∃ new1 t1 new2 t2 p,
    task_coll out2.2 = <[new2 := t2]> (<[new1 := t1]> (task_coll board)) ∧
    new1 ≠ new2 ∧ task_position t1 = Some p ∧ task_position t2 = Some (p + 1).
Proof.
  intros payload out1 out2.
  exact (create_task_twice hex_ObjectId hex_str payload payload board eq_refl).
Defined.

Lemma update_keeps_identifiers_witness :
  let out := route hex_ObjectId hex_str (PATCH_api_tasks todo_id (move_to "done")) board in
  dom (column_coll out.2) = dom (column_coll board) ∧
  dom (task_coll out.2) = dom (task_coll board).
Proof.
  apply (update_keeps_identifiers hex_ObjectId hex_str).
  right. by eexists _, _.
Defined.

Lemma http_errors_witness :
  ∃ c id,
    target (DELETE_api_tasks "not-an-id") = Some (c, id) ∧
    ((400 = 400 ∧ "Invalid task id" = invalid_id_detail c ∧ hex_ObjectId id = None ∧
      (route hex_ObjectId hex_str (DELETE_api_tasks "not-an-id") board).2 = board) ∨
     (400 = 404 ∧ "Invalid task id" = not_found_detail c ∧
      ∃ o, hex_ObjectId id = Some o ∧ ¬ holds board c o)).
Proof.
  apply (http_errors hex_ObjectId hex_str (DELETE_api_tasks "not-an-id") board
           400 "Invalid task id").
  reflexivity.
Defined.

Lemma create_then_delete_column_witness :
  let out := create_column hex_ObjectId hex_str
               {| cc_name := "Doing"; cc_position := None |} board in
  ∃ id c,
    out.1 = Return (J_column (id, c)) ∧
    (delete_column hex_ObjectId id out.2).1 = Return (J_deleted true) ∧
    column_coll (delete_column hex_ObjectId id out.2).2 = column_coll board.
Proof.
  apply (create_then_delete_column hex_ObjectId hex_str
           {| cc_name := "Doing"; cc_position := None |} board).
  by vm_compute.
Defined.

Lemma create_then_delete_task_witness :
  let out := create_task hex_ObjectId hex_str
               (TaskCreate_validate (create_body todo_id Absent)) board in
  ∃ id t,
    out.1 = Return (J_task (id, t)) ∧
    (delete_task hex_ObjectId id out.2).1 = Return (J_deleted true) ∧
    task_coll (delete_task hex_ObjectId id out.2).2 = task_coll board ∧
    column_coll (delete_task hex_ObjectId id out.2).2 = column_coll board.
Proof.
  apply (create_then_delete_task hex_ObjectId hex_str
           (TaskCreate_validate (create_body todo_id Absent)) board).
  by vm_compute.
Defined.
